(** * Sleep-tracking service (sleep.py): a shallow embedding and its properties

    The service is a FastAPI application over one SQLite file.  Every
    endpoint opens a connection, runs a few SQL statements, commits or rolls
    back, and closes the connection.  The embedding follows the source
    function by function:

    - [Py]: Python values the handlers compute with (exceptions, results,
      integers rendered as text, binary64 floats and their two renderings);
    - [Re]: the backtracking regular expressions behind [datetime.strptime]
      and behind the framework's path templates;
    - [Datetime]: the proleptic Gregorian calendar of the [datetime] module;
    - [Sql]: the four tables, a connection with commit and rollback, [LIKE],
      and the aggregates the queries use;
    - [Sleep]: the endpoints of sleep.py, in source order, and the routing
      table they are registered in;
    - the theorems, one group per property of the service.

    Characters are Rocq's [ascii] (code points below 256); timestamps, dates
    and route paths of the service are ASCII text. *)

From Stdlib Require Import ZArith List String Ascii Bool Lia.
From Stdlib Require Import Floats Uint63 DecimalString.
Import ListNotations.

Local Open Scope string_scope.
Local Open Scope list_scope.
Local Open Scope Z_scope.

(** String concatenation, written apart from the [++] of lists. *)
Infix "+++" := String.append (right associativity, at level 60).

(* ===================================================================== *)
(** ** Python values *)
(* ===================================================================== *)

Module Py.

(** Why a [ValueError] was raised; the cases are the ones [datetime] and
    [strptime] raise on the paths the service reaches. *)
Inductive value_error : Type :=
| YearOutOfRange (year : Z)              (* "year %i is out of range" *)
| MonthOutOfRange                        (* "month must be in 1..12" *)
| DayOutOfRange                          (* "day is out of range for month" *)
| HourOutOfRange                         (* "hour must be in 0..23" *)
| MinuteOutOfRange                       (* "minute must be in 0..59" *)
| TimeDataMismatch (data : string)       (* "time data ... does not match format ..." *)
| UnconvertedData (rest : string)        (* "unconverted data remains: ..." *)
| InvalidLiteral (text : string).        (* "invalid literal for int() ..." *)

(** Exceptions.  The detail of an [HTTPException] is text; the source builds
    it from a literal, from [str(e)] or from [f"Error: {e}"], and the three
    are kept apart instead of being rendered. *)
Inductive exn : Type :=
| ValueError (why : value_error)
| TypeError (msg : string)
| OverflowError (msg : string)
| OperationalError (msg : string)        (* sqlite3.OperationalError *)
| HTTPException (status_code : Z) (detail : text)
with text : Type :=
| Lit (s : string)                       (* "..." *)
| Str (e : exn)                          (* str(e) *)
| ErrorStr (e : exn).                    (* f"Error: {e}" *)

(** The outcome of evaluating Python code: a value or a raised exception. *)
Inductive result (A : Type) : Type :=
| Return (a : A)
| Raise (e : exn).
Arguments Return {A} a.
Arguments Raise {A} e.

Definition rbind {A B : Type} (r : result A) (k : A -> result B) : result B :=
  match r with
  | Return a => k a
  | Raise e => Raise e
  end.

Definition raised {A : Type} (r : result A) : bool :=
  match r with Return _ => false | Raise _ => true end.

(** [None[i]]: what subscripting an absent row raises. *)
Definition none_not_subscriptable : exn :=
  TypeError "'NoneType' object is not subscriptable".

(** [str(n)] for an int. *)
Definition str_int (n : Z) : string := NilZero.string_of_int (Z.to_int n).

(** [f"{n:02d}"]: zero-padded to width 2; the sign counts in the width. *)
Definition format_02d (n : Z) : string :=
  if (0 <=? n) && (n <? 10) then ("0" +++ str_int n) else str_int n.

Definition is_digit (c : ascii) : bool :=
  let n := nat_of_ascii c in (48 <=? n)%nat && (n <=? 57)%nat.

(** [\s] on the code points below 256 (Unicode mode of [re]). *)
Definition is_space (c : ascii) : bool :=
  let n := nat_of_ascii c in
  ((9 <=? n)%nat && (n <=? 13)%nat) || ((28 <=? n)%nat && (n <=? 32)%nat)
  || (n =? 133)%nat || (n =? 160)%nat.

Definition digit_value (c : ascii) : Z := Z.of_nat (nat_of_ascii c) - 48.

Fixpoint digits_value (acc : Z) (s : string) : option Z :=
  match s with
  | EmptyString => Some acc
  | String c s' =>
      if is_digit c then digits_value (10 * acc + digit_value c) s' else None
  end.

Fixpoint lstrip (s : string) : string :=
  match s with
  | String c s' => if is_space c then lstrip s' else s
  | EmptyString => EmptyString
  end.

(** [int(s)] on the texts the service converts: digits, possibly after
    blanks (the day field of [strptime] may capture " 5"). *)
Definition int_of_str (s : string) : result Z :=
  match lstrip s with
  | EmptyString => Raise (ValueError (InvalidLiteral s))
  | t => match digits_value 0 t with
         | Some n => Return n
         | None => Raise (ValueError (InvalidLiteral s))
         end
  end.

(** [needle in haystack] for strings. *)
Fixpoint contains (needle haystack : string) : bool :=
  prefix needle haystack
  || match haystack with
     | EmptyString => false
     | String _ rest => contains needle rest
     end.

(** *** Floats

    A Python float is an IEEE binary64, here a primitive float. *)

(** A Python number as the handlers hold it: [x or 0] leaves an int 0 where
    the query gave NULL or zero, a float otherwise. *)
Inductive number : Type :=
| Int (n : Z)
| Float (x : float).

(** [float(n)] for |n| below 2^53, where the conversion is exact. *)
Definition float_of_Z (n : Z) : float :=
  if n <? 0 then PrimFloat.opp (PrimFloat.of_uint63 (Uint63.of_Z (- n)))
  else PrimFloat.of_uint63 (Uint63.of_Z n).

Definition to_float (v : number) : float :=
  match v with
  | Int n => float_of_Z n
  | Float x => x
  end.

(** [a >= b] and [a < b] on doubles: false when either is a NaN. *)
Definition float_ge (a b : float) : bool :=
  match PrimFloat.compare a b with
  | FEq | FGt => true
  | FLt | FNotComparable => false
  end.

Definition float_lt (a b : float) : bool :=
  match PrimFloat.compare a b with
  | FLt => true
  | FEq | FGt | FNotComparable => false
  end.

(** Truth value of a float: false exactly for the two zeros. *)
Definition float_truthy (x : float) : bool :=
  match PrimFloat.compare x 0%float with
  | FEq => false
  | _ => true
  end.

(** [x or 0] where [x] is a REAL or NULL read from a row. *)
Definition or_zero (x : option float) : number :=
  match x with
  | None => Int 0
  | Some f => if float_truthy f then Float f else Int 0
  end.

Definition sign_text (negative : bool) : string := if negative then "-" else "".

(** [n / d] rounded to the nearest integer, ties to the even one
    ([0 <= n], [0 < d]). *)
Definition round_half_even (n d : Z) : Z :=
  let q := n / d in
  match 2 * (n mod d) ?= d with
  | Lt => q
  | Gt => q + 1
  | Eq => if Z.even q then q else q + 1
  end.

(** [m * 2^e * 100] rounded to an integer: the magnitude in hundredths. *)
Definition hundredths (m : positive) (e : Z) : Z :=
  if 0 <=? e then Zpos m * 2 ^ e * 100
  else round_half_even (Zpos m * 100) (2 ^ (- e)).

(** A count of hundredths as [I.FF]. *)
Definition fixed2 (h : Z) : string :=
  (str_int (h / 100) +++ "." +++ str_int (h mod 100 / 10) +++ str_int (h mod 10)).

(** [f"{x:.2f}"]: the exact binary value, correctly rounded to two decimal
    places. *)
Definition format_2f (x : float) : string :=
  match Prim2SF x with
  | S754_nan => "nan"
  | S754_infinity s => (sign_text s +++ "inf")
  | S754_zero s => (sign_text s +++ "0.00")
  | S754_finite s m e => (sign_text s +++ fixed2 (hundredths m e))
  end.

(** [V < 10^k * D], for any sign of [k]. *)
Definition below_pow10 (V D k : Z) : bool :=
  if 0 <=? k then V <? 10 ^ k * D else V * 10 ^ (- k) <? D.

Fixpoint first_pow10_above (fuel : nat) (V D k : Z) : Z :=
  match fuel with
  | O => k
  | S fuel' => if below_pow10 V D k then k else first_pow10_above fuel' V D (k + 1)
  end.

(** The position of the decimal point of [V / D]: the [k] with
    [10^(k-1) <= V / D < 10^k]. *)
Definition decimal_point (V D : Z) : Z :=
  let est := (Z.log2 V - Z.log2 D) * 30103 / 100000 in
  first_pow10_above 8 V D (est - 1).

(** Comparison of [c * 10^p] with [X / D]. *)
Definition cmp_scaled (c p X D : Z) : comparison :=
  if 0 <=? p then c * 10 ^ p * D ?= X else c * D ?= X * 10 ^ (- p).

(** Whether [c * 10^p] reads back as the float whose rounding interval is
    [LO / D .. HI / D]; the ends belong to it when the mantissa is even. *)
Definition reads_back (inclusive : bool) (c p LO HI D : Z) : bool :=
  match cmp_scaled c p LO D, cmp_scaled c p HI D with
  | Gt, Lt => true
  | Eq, Lt | Gt, Eq => inclusive
  | _, _ => false
  end.

(** The decimal with [n] digits that reads back and is nearest to [V / D],
    when there is one. *)
Definition candidate (inclusive : bool) (V LO HI D point : Z) (n : Z) : option (Z * Z) :=
  let p := point - n in
  let lo := if 0 <=? p then V / (D * 10 ^ p) else V * 10 ^ (- p) / D in
  let hi := lo + 1 in
  let ok_lo := reads_back inclusive lo p LO HI D in
  let ok_hi := reads_back inclusive hi p LO HI D in
  (* which of the two is nearer: compare 2 V/D with (lo + hi) 10^p *)
  let nearer_hi :=
    match cmp_scaled (lo + hi) p (2 * V) D with
    | Lt => true
    | Gt => false
    | Eq => Z.odd lo
    end in
  match ok_lo, ok_hi with
  | true, true => Some (if nearer_hi then hi else lo, p)
  | true, false => Some (lo, p)
  | false, true => Some (hi, p)
  | false, false => None
  end.

Fixpoint shortest (fuel : nat) (inclusive : bool) (V LO HI D point n : Z) : Z * Z :=
  match fuel with
  | O => (if 0 <=? point - n then V / (D * 10 ^ (point - n))
          else V * 10 ^ (- (point - n)) / D, point - n)
  | S fuel' =>
      match candidate inclusive V LO HI D point n with
      | Some r => r
      | None => shortest fuel' inclusive V LO HI D point (n + 1)
      end
  end.

Fixpoint strip_zeros (fuel : nat) (c p : Z) : Z * Z :=
  match fuel with
  | O => (c, p)
  | S fuel' => if (c mod 10 =? 0) && negb (c =? 0)
               then strip_zeros fuel' (c / 10) (p + 1) else (c, p)
  end.

(** The shortest decimal digits that read back as [m * 2^e], as the digit
    string and the position of the decimal point before it
    (value = 0.digits * 10^point). *)
Definition shortest_digits (m : positive) (e : Z) : string * Z :=
  let boundary := (Zpos m =? 2 ^ 52) && (-1074 <? e) in
  let V := 4 * Zpos m in
  let HI := V + 2 in
  let LO := if boundary then V - 1 else V - 2 in
  let s := e - 2 in
  let k := if 0 <=? s then 2 ^ s else 1 in
  let D := if 0 <=? s then 1 else 2 ^ (- s) in
  let '(c, p) :=
    shortest 17 (Z.even (Zpos m)) (V * k) (LO * k) (HI * k) D
             (decimal_point (V * k) D) 1 in
  let '(c, p) := strip_zeros 20 c p in
  let ds := str_int c in
  (ds, p + Z.of_nat (String.length ds)).

Fixpoint zeros (n : nat) : string :=
  match n with
  | O => ""
  | S n' => String "0" (zeros n')
  end.

(** The exponent of the scientific form: a sign and at least two digits. *)
Definition exponent_text (x : Z) : string :=
  let a := Z.abs x in
  ((if x <? 0 then "-" else "+") +++ (if a <? 10 then "0" else "") +++ str_int a).

(** [repr(x)], which is also what an f-string field without a format
    specification renders: the shortest digits that read back as [x], in
    positional form when the decimal point falls within (-4, 16]. *)
Definition float_repr (x : float) : string :=
  match Prim2SF x with
  | S754_nan => "nan"
  | S754_infinity s => (sign_text s +++ "inf")
  | S754_zero s => (sign_text s +++ "0.0")
  | S754_finite s m e =>
      let '(ds, point) := shortest_digits m e in
      let len := Z.of_nat (String.length ds) in
      let body :=
        if (point <=? -4) || (16 <? point) then
          (substring 0 1 ds
           +++ (if 1 <? len then "." +++ substring 1 (String.length ds - 1) ds else "")
           +++ "e" +++ exponent_text (point - 1))
        else if point <=? 0 then
          ("0." +++ zeros (Z.to_nat (- point)) +++ ds)
        else if len <=? point then
          (ds +++ zeros (Z.to_nat (point - len)) +++ ".0")
        else
          (substring 0 (Z.to_nat point) ds +++ "."
           +++ substring (Z.to_nat point) (String.length ds - Z.to_nat point) ds)
      in (sign_text s +++ body)
  end.

(** [f"{v}"] and [f"{v:.2f}"] for a number. *)
Definition number_repr (v : number) : string :=
  match v with
  | Int n => str_int n
  | Float x => float_repr x
  end.

Definition number_format_2f (v : number) : string := format_2f (to_float v).

End Py.
Export Py.

Declare Scope py_scope.
Delimit Scope py_scope with py.
Notation "x <- r ;; k" := (rbind r (fun x => k))
  (at level 61, r at next level, right associativity) : py_scope.

(* ===================================================================== *)
(** ** Regular expressions, as [re.match] runs them *)
(* ===================================================================== *)

Module Re.

(** The fragment of [re] syntax that the two patterns of the service are
    written in.  Alternatives are tried left to right and [+] is greedy; a
    failure later in the pattern backtracks into both. *)
Inductive regex : Type :=
| Chr (c : ascii)                        (* a literal character *)
| Cls (p : ascii -> bool)                (* a character class *)
| Cat (r1 r2 : regex)                    (* r1 r2 *)
| Alt (r1 r2 : regex)                    (* r1|r2 *)
| Plus (p : ascii -> bool)               (* class+ *)
| Grp (name : string) (r : regex)        (* (?P<name>r) *)
| Eps                                    (* the empty pattern *)
| Dollar.                                (* $ *)

Definition captures : Type := list (string * string).

(** Remainders after one or more characters of class [p], longest match
    first. *)
Fixpoint plus_rests (p : ascii -> bool) (s : string) : list string :=
  match s with
  | String c s' => if p c then plus_rests p s' ++ [s'] else []
  | EmptyString => []
  end.

(** The text of [s] consumed when [rest] is what remains of it. *)
Definition consumed (s rest : string) : string :=
  substring 0 (String.length s - String.length rest) s.

(** All the ways [r] matches a prefix of [s], in the order the backtracking
    matcher tries them: each is the remaining input with the groups bound so
    far (innermost and latest first). *)
Fixpoint exec (r : regex) (s : string) (caps : captures)
  : list (string * captures) :=
  match r with
  | Chr c =>
      match s with
      | String d s' => if Ascii.eqb c d then [(s', caps)] else []
      | EmptyString => []
      end
  | Cls p =>
      match s with
      | String d s' => if p d then [(s', caps)] else []
      | EmptyString => []
      end
  | Cat r1 r2 =>
      flat_map (fun m => exec r2 (fst m) (snd m)) (exec r1 s caps)
  | Alt r1 r2 => exec r1 s caps ++ exec r2 s caps
  | Plus p => map (fun rest => (rest, caps)) (plus_rests p s)
  | Grp name r1 =>
      map (fun m => (fst m, (name, consumed s (fst m)) :: snd m))
          (exec r1 s caps)
  | Eps => [(s, caps)]
  | Dollar =>
      (* the end of the string, or just before a final newline *)
      if String.eqb s "" || String.eqb s (String "010" "")
      then [(s, caps)] else []
  end.

(** [pattern.match(s)]: the first match in priority order, as the remaining
    input and the groups. *)
Definition re_match (r : regex) (s : string) : option (string * captures) :=
  hd_error (exec r s []).

Fixpoint group (name : string) (caps : captures) : option string :=
  match caps with
  | [] => None
  | (n, v) :: caps' => if String.eqb n name then Some v else group name caps'
  end.

(** A literal text as a pattern. *)
Fixpoint lit (s : string) : regex :=
  match s with
  | EmptyString => Eps
  | String c s' => Cat (Chr c) (lit s')
  end.

Definition range (lo hi : ascii) (c : ascii) : bool :=
  (nat_of_ascii lo <=? nat_of_ascii c)%nat
  && (nat_of_ascii c <=? nat_of_ascii hi)%nat.

Definition digit : regex := Cls is_digit.                         (* \d *)
Definition between (lo hi : ascii) : regex := Cls (range lo hi).  (* [lo-hi] *)

End Re.

(* ===================================================================== *)
(** ** The datetime module *)
(* ===================================================================== *)

Module Datetime.
Import Re.
Local Open Scope py_scope.

Definition MINYEAR : Z := 1.
Definition MAXYEAR : Z := 9999.

Definition _is_leap (year : Z) : bool :=
  (year mod 4 =? 0) && (negb (year mod 100 =? 0) || (year mod 400 =? 0)).

Definition _DAYS_IN_MONTH (month : Z) : Z :=
  match month with
  | 1 => 31 | 2 => 28 | 3 => 31 | 4 => 30 | 5 => 31 | 6 => 30
  | 7 => 31 | 8 => 31 | 9 => 30 | 10 => 31 | 11 => 30 | 12 => 31
  | _ => -1
  end.

Definition _DAYS_BEFORE_MONTH (month : Z) : Z :=
  match month with
  | 1 => 0 | 2 => 31 | 3 => 59 | 4 => 90 | 5 => 120 | 6 => 151
  | 7 => 181 | 8 => 212 | 9 => 243 | 10 => 273 | 11 => 304 | 12 => 334
  | _ => -1
  end.

Definition _days_before_year (year : Z) : Z :=
  let y := year - 1 in y * 365 + y / 4 - y / 100 + y / 400.

Definition _days_in_month (year month : Z) : Z :=
  if (month =? 2) && _is_leap year then 29 else _DAYS_IN_MONTH month.

Definition _days_before_month (year month : Z) : Z :=
  _DAYS_BEFORE_MONTH month + (if (2 <? month) && _is_leap year then 1 else 0).

(** Day 1 is 0001-01-01. *)
Definition _ymd2ord (year month day : Z) : Z :=
  _days_before_year year + _days_before_month year month + day.

Definition _DI400Y : Z := 146097.
Definition _DI100Y : Z := 36524.
Definition _DI4Y : Z := 1461.

Definition _ord2ymd (ordinal : Z) : Z * Z * Z :=
  let n := ordinal - 1 in
  let n400 := n / _DI400Y in
  let n := n mod _DI400Y in
  let year := n400 * 400 + 1 in
  let n100 := n / _DI100Y in
  let n := n mod _DI100Y in
  let n4 := n / _DI4Y in
  let n := n mod _DI4Y in
  let n1 := n / 365 in
  let n := n mod 365 in
  let year := year + n100 * 100 + n4 * 4 + n1 in
  if (n1 =? 4) || (n100 =? 4) then (year - 1, 12, 31)
  else
    let leapyear := (n1 =? 3) && (negb (n4 =? 24) || (n100 =? 3)) in
    let month := Z.shiftr (n + 50) 5 in
    let preceding :=
      _DAYS_BEFORE_MONTH month + (if (2 <? month) && leapyear then 1 else 0) in
    if n <? preceding then
      let month := month - 1 in
      let preceding :=
        preceding
        - (_DAYS_IN_MONTH month + (if (month =? 2) && leapyear then 1 else 0)) in
      (year, month, n - preceding + 1)
    else (year, month, n - preceding + 1).

(** A [datetime]; seconds and microseconds are always 0 in the service and
    are carried for [total_seconds]. *)
Record datetime : Type := mk_datetime {
  year : Z; month : Z; day : Z; hour : Z; minute : Z; second : Z
}.

Record timedelta : Type := mk_timedelta {
  days : Z; seconds : Z; microseconds : Z
}.

Definition fits_c_int (n : Z) : bool := (-2147483648 <=? n) && (n <=? 2147483647).

(** [datetime(year, month, day, hour, minute)]: the arguments are read as C
    ints, then the date and the time are checked field by field. *)
Definition new_datetime (y m d hh mm : Z) : result datetime :=
  if negb (fits_c_int y && fits_c_int m && fits_c_int d
           && fits_c_int hh && fits_c_int mm)
  then Raise (OverflowError "Python int too large to convert to C int")
  else if negb ((MINYEAR <=? y) && (y <=? MAXYEAR))
  then Raise (ValueError (YearOutOfRange y))
  else if negb ((1 <=? m) && (m <=? 12))
  then Raise (ValueError MonthOutOfRange)
  else if negb ((1 <=? d) && (d <=? _days_in_month y m))
  then Raise (ValueError DayOutOfRange)
  else if negb ((0 <=? hh) && (hh <=? 23))
  then Raise (ValueError HourOutOfRange)
  else if negb ((0 <=? mm) && (mm <=? 59))
  then Raise (ValueError MinuteOutOfRange)
  else Return (mk_datetime y m d hh mm 0).

Definition toordinal (t : datetime) : Z := _ymd2ord (year t) (month t) (day t).

Definition _MAXORDINAL : Z := 3652059.   (* date(9999, 12, 31).toordinal() *)

(** [t - timedelta(days=n)]. *)
Definition sub_days (t : datetime) (n : Z) : result datetime :=
  let o := toordinal t - n in
  if (1 <=? o) && (o <=? _MAXORDINAL) then
    let '(y, m, d) := _ord2ymd o in
    Return (mk_datetime y m d (hour t) (minute t) (second t))
  else Raise (OverflowError "date value out of range").

(** [a - b] for two datetimes: the difference in days and in seconds,
    normalized so that [0 <= seconds < 86400]. *)
Definition sub_datetime (a b : datetime) : timedelta :=
  let delta_d := toordinal a - toordinal b in
  let delta_s :=
    (hour a - hour b) * 3600 + (minute a - minute b) * 60
    + (second a - second b) in
  mk_timedelta (delta_d + delta_s / 86400) (delta_s mod 86400) 0.

(** [delta.total_seconds()]: the microseconds divided by 10^6.  The division
    is exact here (the service's deltas are whole seconds) and the quotient
    is below 2^53, so the float is the quotient itself. *)
Definition total_seconds (delta : timedelta) : float :=
  float_of_Z (((days delta * 86400 + seconds delta) * 10 ^ 6 + microseconds delta)
              / 10 ^ 6).

(** The pattern [strptime] compiles '%Y-%m-%d %H:%M' to:
    [(?P<Y>\d\d\d\d)-(?P<m>1[0-2]|0[1-9]|[1-9])-(?P<d>3[0-1]|[1-2]\d|0[1-9]|[1-9]| [1-9])\s+(?P<H>2[0-3]|[0-1]\d|\d):(?P<M>[0-5]\d|\d)] *)
Definition re_Y : regex := Grp "Y" (Cat digit (Cat digit (Cat digit digit))).
Definition re_m : regex :=
  Grp "m" (Alt (Cat (Chr "1") (between "0" "2"))
          (Alt (Cat (Chr "0") (between "1" "9"))
               (between "1" "9"))).
Definition re_d : regex :=
  Grp "d" (Alt (Cat (Chr "3") (between "0" "1"))
          (Alt (Cat (between "1" "2") digit)
          (Alt (Cat (Chr "0") (between "1" "9"))
          (Alt (between "1" "9")
               (Cat (Chr " ") (between "1" "9")))))).
Definition re_H : regex :=
  Grp "H" (Alt (Cat (Chr "2") (between "0" "3"))
          (Alt (Cat (between "0" "1") digit)
               digit)).
Definition re_M : regex :=
  Grp "M" (Alt (Cat (between "0" "5") digit) digit).

Definition format_regex : regex :=
  Cat re_Y (Cat (Chr "-") (Cat re_m (Cat (Chr "-") (Cat re_d
  (Cat (Plus is_space) (Cat re_H (Cat (Chr ":") re_M))))))).

Definition field (name : string) (caps : captures) : result Z :=
  match group name caps with
  | Some v => int_of_str v
  | None => Raise (ValueError (InvalidLiteral name))
  end.

(** [datetime.strptime(data_string, '%Y-%m-%d %H:%M')]. *)
Definition strptime (data_string : string) : result datetime :=
  match re_match format_regex data_string with
  | None => Raise (ValueError (TimeDataMismatch data_string))
  | Some (rest, found) =>
      if negb (String.eqb rest "")
      then Raise (ValueError (UnconvertedData rest))
      else
        y <- field "Y" found ;;
        m <- field "m" found ;;
        d <- field "d" found ;;
        hh <- field "H" found ;;
        mm <- field "M" found ;;
        new_datetime y m d hh mm
  end.

End Datetime.

(* ===================================================================== *)
(** ** The SQLite store *)
(* ===================================================================== *)

Module Sql.

(** A row of [sleep_logs]; [SELECT *] yields the columns in this order, so
    [row[1]], [row[2]] and [row[3]] are the two timestamps and the duration. *)
Record SleepLogRow : Type := mk_log {
  id : Z;
  sleep_time : string;
  wake_time : string;
  duration : float
}.

(** A row of [history]: the copy of a deleted log. *)
Record HistoryRow : Type := mk_history {
  h_sleep_time : string;
  h_wake_time : string;
  h_duration : float
}.

(** A row of [sleep_recommendations]. *)
Record RecommendationRow : Type := mk_rec {
  rec_id : Z;
  recommendation : string
}.

(** The four tables, each in storage order. *)
Record DB : Type := mk_db {
  sleep_logs : list SleepLogRow;
  history : list HistoryRow;
  sleep_recommendations : list RecommendationRow;
  recommendation_history : list string
}.

(** [db_connection()]: a connection sees the committed state and works on a
    copy of it; [commit] publishes the copy, [rollback] drops it, and
    closing leaves what was committed. *)
Record Conn : Type := mk_conn {
  durable : DB;
  work : DB
}.

Definition db_connection (db : DB) : Conn := mk_conn db db.
Definition commit (c : Conn) : Conn := mk_conn (work c) (work c).
Definition rollback (c : Conn) : Conn := mk_conn (durable c) (durable c).
Definition close (c : Conn) : DB := durable c.

Definition with_sleep_logs (f : list SleepLogRow -> list SleepLogRow) (c : Conn) : Conn :=
  mk_conn (durable c)
    (mk_db (f (sleep_logs (work c))) (history (work c))
           (sleep_recommendations (work c)) (recommendation_history (work c))).

Definition with_history (f : list HistoryRow -> list HistoryRow) (c : Conn) : Conn :=
  mk_conn (durable c)
    (mk_db (sleep_logs (work c)) (f (history (work c)))
           (sleep_recommendations (work c)) (recommendation_history (work c))).

Definition with_recommendations
  (f : list RecommendationRow -> list RecommendationRow) (c : Conn) : Conn :=
  mk_conn (durable c)
    (mk_db (sleep_logs (work c)) (history (work c))
           (f (sleep_recommendations (work c))) (recommendation_history (work c))).

Definition with_recommendation_history (f : list string -> list string) (c : Conn) : Conn :=
  mk_conn (durable c)
    (mk_db (sleep_logs (work c)) (history (work c))
           (sleep_recommendations (work c)) (f (recommendation_history (work c)))).

(** Modelled from the spec: the schema is created outside the source
    ([init_db] is called but not defined there).  The data model gives each
    live table an automatically assigned [id]; a new row takes the successor
    of the largest id in the table, and rows are kept in insertion order. *)
Definition next_id (ids : list Z) : Z := fold_right Z.max 0 ids + 1.


(** [cursor.fetchone()] and [cursor.rowcount]. *)
Definition fetchone {A : Type} (rows : list A) : option A := hd_error rows.
Definition rowcount {A : Type} (affected : list A) : Z := Z.of_nat (List.length affected).

(** *** LIKE

    [%] stands for any run of characters, [_] for any one character, and
    every other character for itself, letters of ASCII in either case. *)

Definition lower (c : ascii) : ascii :=
  let n := nat_of_ascii c in
  if (65 <=? n)%nat && (n <=? 90)%nat then ascii_of_nat (n + 32) else c.

Fixpoint some_suffix (f : string -> bool) (s : string) : bool :=
  f s || match s with
         | String _ s' => some_suffix f s'
         | EmptyString => false
         end.

Fixpoint like (pattern s : string) {struct pattern} : bool :=
  match pattern with
  | EmptyString =>
      match s with EmptyString => true | String _ _ => false end
  | String c pattern' =>
      if Ascii.eqb c "%" then some_suffix (like pattern') s
      else
        match s with
        | EmptyString => false
        | String d s' =>
            (Ascii.eqb c "_" || Ascii.eqb (lower c) (lower d)) && like pattern' s'
        end
  end.

(** The engine refuses a pattern of more than 50000 bytes when it comes to
    compare it with a value; the driver hands the text over as UTF-8, in
    which a character from 128 on takes two bytes. *)
Definition SQLITE_MAX_LIKE_PATTERN_LENGTH : Z := 50000.

Fixpoint utf8_length (s : string) : Z :=
  match s with
  | EmptyString => 0
  | String c s' => (if (nat_of_ascii c <? 128)%nat then 1 else 2) + utf8_length s'
  end.

Definition like_too_complex (pattern : string) : bool :=
  SQLITE_MAX_LIKE_PATTERN_LENGTH <? utf8_length pattern.

Definition too_complex : exn := OperationalError "LIKE or GLOB pattern too complex".

(** [SELECT ... WHERE col LIKE ?] over the rows of a table: the rows that
    match, in storage order.  The pattern is looked at when the first row
    is tested, so a table without rows gives no error. *)
Definition where_like {A : Type} (pattern : string) (col : A -> string) (rows : list A)
  : result (list A) :=
  match rows with
  | [] => Return []
  | _ :: _ =>
      if like_too_complex pattern then Raise too_complex
      else Return (filter (fun r => like pattern (col r)) rows)
  end.

(** *** Aggregates over a REAL column; [None] is NULL. *)

Definition real_max (l : list float) : option float :=
  match l with
  | [] => None
  | x :: l' => Some (fold_left (fun a b => if float_lt a b then b else a) l' x)
  end.

Definition real_min (l : list float) : option float :=
  match l with
  | [] => None
  | x :: l' => Some (fold_left (fun a b => if float_lt b a then b else a) l' x)
  end.

(** What the engine decides and the source does not: how [strftime] reads a
    stored text as a time value (NULL when it cannot), how a column of
    reals is added up, and how the framework reads an int path parameter. *)
Record Env : Type := mk_env {
  strftime : string -> string -> option string;
  real_sum : list float -> float;
  int_param : string -> option Z
}.

(** [SUM] and [AVG]: NULL over no rows. *)
Definition sql_sum (E : Env) (l : list float) : option float :=
  match l with
  | [] => None
  | _ => Some (real_sum E l)
  end.

Definition sql_avg (E : Env) (l : list float) : option float :=
  match l with
  | [] => None
  | _ => Some (PrimFloat.div (real_sum E l) (float_of_Z (Z.of_nat (List.length l))))
  end.

Definition key_eqb (a b : option string) : bool :=
  match a, b with
  | Some x, Some y => String.eqb x y
  | None, None => true
  | _, _ => false
  end.

Definition key_leb (a b : option string) : bool :=
  match a, b with
  | None, _ => true
  | Some _, None => false
  | Some x, Some y => String.leb x y
  end.

(** The groups with their numbers of rows, collected in order of first
    appearance. *)
Fixpoint bump (k : option string) (groups : list (option string * Z))
  : list (option string * Z) :=
  match groups with
  | [] => [(k, 1)]
  | (k', n) :: rest =>
      if key_eqb k k' then (k', n + 1) :: rest
      else (k', n) :: bump k rest
  end.

Definition group_count (keys : list (option string)) : list (option string * Z) :=
  fold_left (fun groups k => bump k groups) keys [].

(** [GROUP BY key] with [COUNT( * )]: the engine sorts the rows on the key to
    form the groups, so the groups come out in the order of their keys, NULL
    first and texts by their characters. *)
Fixpoint insert_group (g : option string * Z) (groups : list (option string * Z))
  : list (option string * Z) :=
  match groups with
  | [] => [g]
  | h :: rest =>
      if key_leb (fst g) (fst h) then g :: groups else h :: insert_group g rest
  end.

Definition group_by (keys : list (option string)) : list (option string * Z) :=
  fold_right insert_group [] (group_count keys).

(** [ORDER BY count DESC LIMIT 1].  SQL leaves the order among equal counts
    open; the engine keeps the one row it is to return and replaces it by
    each later row that does not sort after it, so among equal counts the
    last group stays. *)
Definition order_by_count_desc_limit_1 (groups : list (option string * Z))
  : option (option string * Z) :=
  match groups with
  | [] => None
  | g :: rest =>
      Some (fold_left (fun best g' => if snd best <=? snd g' then g' else best) rest g)
  end.

(** *** An engine to run the examples with *)

Definition two_digits (s : string) : bool :=
  match s with
  | String a (String b EmptyString) => is_digit a && is_digit b
  | _ => false
  end.

(** The blanks the engine skips between the date and the time. *)
Definition sqlite_space (c : ascii) : bool :=
  let n := nat_of_ascii c in ((9 <=? n)%nat && (n <=? 13)%nat) || (n =? 32)%nat.

Fixpoint skip_spaces (s : string) : string :=
  match s with
  | String c s' => if sqlite_space c then skip_spaces s' else s
  | EmptyString => EmptyString
  end.

(** [strftime] on the texts the service stores.  A stored timestamp was
    accepted by [strptime]; the engine reads such a text as a time value
    exactly when it has the strict shape [YYYY-MM-DD], blanks, [HH:MM], and
    then the year, month and hour fields are the digits as written.  Texts
    that [strptime] rejects never enter the table and are left unread. *)
Definition sqlite_strftime (format timevalue : string) : option string :=
  let Y := substring 0 4 timevalue in
  let m := substring 5 2 timevalue in
  let d := substring 8 2 timevalue in
  let rest := skip_spaces (substring 10 (String.length timevalue - 10) timevalue) in
  let H := substring 0 2 rest in
  let M := substring 3 2 rest in
  let shape :=
    two_digits (substring 0 2 Y) && two_digits (substring 2 2 Y)
    && String.eqb (substring 4 1 timevalue) "-" && two_digits m
    && String.eqb (substring 7 1 timevalue) "-" && two_digits d
    && two_digits H && String.eqb (substring 2 1 rest) ":" && two_digits M
    && (String.length rest =? 5)%nat in
  if shape && negb (raised (Datetime.strptime timevalue)) then
    if String.eqb format "%Y" then Some Y
    else if String.eqb format "%m" then Some m
    else if String.eqb format "%H" then Some H
    else None
  else None.

(** The column added up in row order. *)
Definition naive_sum (l : list float) : float :=
  fold_left PrimFloat.add l 0%float.

(** Decimal digits with an optional sign. *)
Definition decimal_int (s : string) : option Z :=
  match s with
  | EmptyString => None
  | String "-" EmptyString => None
  | String "+" EmptyString => None
  | String "-" t => option_map Z.opp (digits_value 0 t)
  | String "+" t => digits_value 0 t
  | _ => digits_value 0 s
  end.

Definition sqlite3 : Env := mk_env sqlite_strftime naive_sum decimal_int.

End Sql.

(* ===================================================================== *)
(** ** The service: sleep.py *)
(* ===================================================================== *)

(** The request models. *)
Module SleepLog.
Record t : Type := mk {
  sleep_time : string;
  wake_time : string;
  duration : float
}.
End SleepLog.

Module SleepGoal.
Record t : Type := mk {
  year : Z;
  month : Z;
  hours_per_night : float
}.
End SleepGoal.

Module Sleep.
Import Sql.

(** What a handler returns, as the JSON it is serialized to. *)
#[local] Unset Elimination Schemes.
Inductive json : Type :=
| JNull
| JNum (v : number)
| JStr (s : string)
| JList (items : list json)
| JObj (fields : list (string * json)).
#[local] Set Elimination Schemes.

Definition message (s : string) : json := JObj [("message", JStr s)].

(** [dict(row)] for the rows of the four tables. *)
Definition dict_log (r : SleepLogRow) : json :=
  JObj [("id", JNum (Int (id r))); ("sleep_time", JStr (sleep_time r));
        ("wake_time", JStr (wake_time r)); ("duration", JNum (Float (duration r)))].

Definition dict_history (r : HistoryRow) : json :=
  JObj [("sleep_time", JStr (h_sleep_time r)); ("wake_time", JStr (h_wake_time r));
        ("duration", JNum (Float (h_duration r)))].

Definition dict_rec (r : RecommendationRow) : json :=
  JObj [("id", JNum (Int (rec_id r))); ("recommendation", JStr (recommendation r))].

Definition dict_rec_history (r : string) : json := JObj [("recommendation", JStr r)].

(** The elements of a returned list; nothing for any other outcome. *)
Definition items (r : result json) : list json :=
  match r with
  | Return (JList l) => l
  | _ => []
  end.

(** *** Code that runs on an open connection

    A computation takes the connection, returns a value or raises, and
    leaves the connection as its statements changed it. *)
Definition M (A : Type) : Type := Conn -> result A * Conn.

Definition ret {A : Type} (a : A) : M A := fun c => (Return a, c).
Definition raise {A : Type} (e : exn) : M A := fun c => (Raise e, c).
Definition bind {A B : Type} (m : M A) (k : A -> M B) : M B :=
  fun c => match m c with
           | (Return a, c') => k a c'
           | (Raise e, c') => (Raise e, c')
           end.
(** A Python expression evaluated between two statements. *)
Definition eval {A : Type} (r : result A) : M A := fun c => (r, c).
(** A query: it reads the working state. *)
Definition query {A : Type} (q : DB -> A) : M A := fun c => (Return (q (work c)), c).
(** A query the engine can refuse. *)
Definition select {A : Type} (q : DB -> result A) : M A := fun c => (q (work c), c).
(** A statement or a connection method: it changes the connection. *)
Definition execute {A : Type} (stmt : Conn -> A * Conn) : M A :=
  fun c => let (a, c') := stmt c in (Return a, c').
Definition call (f : Conn -> Conn) : M unit := fun c => (Return tt, f c).

(** [try: body except Exception as e: handler(e)]. *)
Definition try_except {A : Type} (body : M A) (handler : exn -> M A) : M A :=
  fun c => match body c with
           | (Raise e, c') => handler e c'
           | ok => ok
           end.

(** [connection = db_connection(); try: body finally: connection.close()]:
    the store after the request is what the connection committed. *)
Definition finally_close {A : Type} (body : M A) (db : DB) : result A * DB :=
  let (r, c) := body (db_connection db) in (r, close c).

Declare Scope conn_scope.
Delimit Scope conn_scope with conn.
Notation "x <-- m ;; k" := (bind m (fun x => k))
  (at level 61, m at next level, right associativity) : conn_scope.
Notation "m ;;; k" := (bind m (fun _ => k))
  (at level 61, right associativity) : conn_scope.
Local Open Scope conn_scope.

Definition handler : Type := DB -> result json * DB.

(** *** The statements

    An id bound to a statement is taken among the integers the engine
    stores ([sqlite_integer]), as the ids of the rows are.  For any other
    int the driver raises an [OverflowError] when the id is bound, before
    the statement runs; the statements below do not cover that case, and a
    property of an id that is in no row names the range where it depends on
    it. *)

(** [INSERT INTO sleep_logs (sleep_time, wake_time, duration) VALUES (?, ?, ?)] *)
Definition insert_sleep_log (st wt : string) (d : float) (c : Conn) : unit * Conn :=
  (tt, with_sleep_logs
         (fun rows => rows ++ [mk_log (next_id (map id rows)) st wt d]) c).

(** [UPDATE sleep_logs SET sleep_time = ?, wake_time = ?, duration = ? WHERE id = ?] *)
Definition update_sleep_logs (st wt : string) (d : float) (log_id : Z) (c : Conn)
  : Z * Conn :=
  (rowcount (filter (fun r => id r =? log_id) (sleep_logs (work c))),
   with_sleep_logs
     (map (fun r => if id r =? log_id then mk_log (id r) st wt d else r)) c).

(** [DELETE FROM sleep_logs WHERE id = ?] *)
Definition delete_sleep_logs (log_id : Z) (c : Conn) : Z * Conn :=
  (rowcount (filter (fun r => id r =? log_id) (sleep_logs (work c))),
   with_sleep_logs (filter (fun r => negb (id r =? log_id))) c).

(** [INSERT INTO history (sleep_time, wake_time, duration) VALUES (?, ?, ?)] *)
Definition insert_history (st wt : string) (d : float) (c : Conn) : unit * Conn :=
  (tt, with_history (fun rows => rows ++ [mk_history st wt d]) c).

(** [INSERT INTO sleep_recommendations (recommendation) VALUES (?)] *)
Definition insert_recommendation (text : string) (c : Conn) : unit * Conn :=
  (tt, with_recommendations
         (fun rows => rows ++ [mk_rec (next_id (map rec_id rows)) text]) c).

(** [UPDATE sleep_recommendations SET recommendation = ? WHERE id = ?] *)
Definition update_recommendations (text : string) (rid : Z) (c : Conn) : Z * Conn :=
  (rowcount (filter (fun r => rec_id r =? rid) (sleep_recommendations (work c))),
   with_recommendations
     (map (fun r => if rec_id r =? rid then mk_rec (rec_id r) text else r)) c).

(** [DELETE FROM sleep_recommendations WHERE id = ?] *)
Definition delete_recommendations (rid : Z) (c : Conn) : Z * Conn :=
  (rowcount (filter (fun r => rec_id r =? rid) (sleep_recommendations (work c))),
   with_recommendations (filter (fun r => negb (rec_id r =? rid))) c).

(** [INSERT INTO recommendation_history(recommendation) VALUES (?)] *)
Definition insert_recommendation_history (text : string) (c : Conn) : unit * Conn :=
  (tt, with_recommendation_history (fun rows => rows ++ [text]) c).

(** [WHERE sleep_time LIKE ?] with the parameter [f"{date}%"]: the test of
    one row, and the rows of the table that pass it. *)
Definition starts_like (date : string) (r : SleepLogRow) : bool :=
  like (date +++ "%") (sleep_time r).

Definition logs_like (date : string) (db : DB) : result (list SleepLogRow) :=
  where_like (date +++ "%") sleep_time (sleep_logs db).

(** [WHERE strftime('%Y', sleep_time) = ?]; a NULL on the left excludes the
    row. *)
Definition strftime_is (E : Env) (format param : string) (r : SleepLogRow) : bool :=
  key_eqb (strftime E format (sleep_time r)) (Some param).

(** [(wake_time - sleep_time).total_seconds() / 3600] *)
Definition hours_between (wake sleep : Datetime.datetime) : float :=
  PrimFloat.div (Datetime.total_seconds (Datetime.sub_datetime wake sleep))
                (float_of_Z 3600).

(** *** The endpoints, in source order *)

Section Endpoints.
Variable E : Env.

(** [POST /sleep_logs].  The two [strptime] calls come before the [try]; the
    statements inside it do not fail in this store, so its [except] clause
    stays unused. *)
Definition add_sleep_log (log : SleepLog.t) : handler := fun db =>
  match Datetime.strptime (SleepLog.sleep_time log) with
  | Raise e => (Raise e, db)
  | Return sleep_time =>
  match Datetime.strptime (SleepLog.wake_time log) with
  | Raise e => (Raise e, db)
  | Return wake_time =>
      let duration := hours_between wake_time sleep_time in
      finally_close
        (try_except
           (execute (insert_sleep_log (SleepLog.sleep_time log)
                                      (SleepLog.wake_time log) duration) ;;;
            call commit ;;;
            ret (message "Sleep log added successfully!"))
           (fun e => call rollback ;;;
                     raise (HTTPException 500 (Str e))))
        db
  end end.

(** [GET /sleep_logs] *)
Definition get_all_sleep_logs : handler :=
  finally_close
    (logs <-- query sleep_logs ;;
     ret (JList (map dict_log logs))).

(** [GET /sleep_logs/{date}]: no [except] clause. *)
Definition get_sleep_logs_by_date (date : string) : handler :=
  finally_close
    (logs <-- select (logs_like date) ;;
     ret (match logs with
          | [] => JList []
          | _ => JList (map dict_log logs)
          end)).

(** [PUT /sleep_logs/{log_id}] *)
Definition update_sleep_log (log_id : Z) (log : SleepLog.t) : handler :=
  finally_close
    (try_except
       (found <-- query (fun db =>
                    fetchone (filter (fun r => id r =? log_id) (sleep_logs db))) ;;
        match found with
        | None => raise (HTTPException 404 (Lit "Sleep log not found"))
        | Some _ =>
            sleep_time <-- eval (Datetime.strptime (SleepLog.sleep_time log)) ;;
            wake_time <-- eval (Datetime.strptime (SleepLog.wake_time log)) ;;
            let duration := hours_between wake_time sleep_time in
            execute (update_sleep_logs (SleepLog.sleep_time log)
                                       (SleepLog.wake_time log) duration log_id) ;;;
            call commit ;;;
            ret (message "Sleep log updated successfully!")
        end)
       (fun e => call rollback ;;;
                 raise (HTTPException 500 (Str e)))).

(** [DELETE /sleep_logs/{log_id}].  The arguments of the INSERT subscript
    the fetched row, so an absent row raises before the statement runs. *)
Definition delete_sleep_log (log_id : Z) : handler :=
  finally_close
    (try_except
       (history <-- query (fun db =>
                      fetchone (filter (fun r => id r =? log_id) (sleep_logs db))) ;;
        match history with
        | None => raise none_not_subscriptable
        | Some h =>
            execute (insert_history (sleep_time h) (wake_time h) (duration h)) ;;;
            deleted <-- execute (delete_sleep_logs log_id) ;;
            call commit ;;;
            if deleted =? 0
            then raise (HTTPException 404 (Lit "Sleep log not found"))
            else ret (message "Sleep log deleted successfully!")
        end)
       (fun e => call rollback ;;;
                 raise (HTTPException 500 (Str e)))).

(** [GET /sleep_logs/average_duration] *)
Definition get_average_sleep_duration : handler :=
  finally_close
    (average_duration <-- query (fun db =>
        or_zero (sql_avg E (map duration (sleep_logs db)))) ;;
     ret (JObj [("average_sleep_duration", JNum average_duration)])).

(** The row of [SELECT strftime('%H', col) as hour, COUNT( * ) as count FROM
    sleep_logs GROUP BY hour ORDER BY count DESC LIMIT 1]. *)
Definition frequent_hour (col : SleepLogRow -> string) (db : DB)
  : option (option string * Z) :=
  order_by_count_desc_limit_1
    (group_by (map (fun r => strftime E "%H" (col r)) (sleep_logs db))).

Definition hour_json (h : option string) : json :=
  match h with
  | Some s => JStr s
  | None => JNull
  end.

(** [GET /sleep_logs/frequent_sleep_time]: no [except] clause. *)
Definition get_frequent_sleep_time : handler :=
  finally_close
    (frequent_time <-- query (frequent_hour sleep_time) ;;
     match frequent_time with
     | None => raise none_not_subscriptable
     | Some (hour, count) =>
         ret (JObj [("frequent_sleep_hour", hour_json hour);
                    ("count", JNum (Int count))])
     end).

(** [GET /sleep_logs/frequent_wake_time] *)
Definition get_frequent_wake_time : handler :=
  finally_close
    (frequent_time <-- query (frequent_hour wake_time) ;;
     match frequent_time with
     | None => raise none_not_subscriptable
     | Some (hour, count) =>
         ret (JObj [("frequent_wake_hour", hour_json hour);
                    ("count", JNum (Int count))])
     end).

(** [GET /sleep_logs/longest_sleep] *)
Definition get_longest_sleep_duration : handler :=
  finally_close
    (longest_sleep <-- query (fun db =>
        or_zero (real_max (map duration (sleep_logs db)))) ;;
     ret (JObj [("longest_sleep_duration", JNum longest_sleep)])).

(** [GET /sleep_logs/shortest_sleep] *)
Definition get_shortest_sleep_duration : handler :=
  finally_close
    (shortest_sleep <-- query (fun db =>
        or_zero (real_min (map duration (sleep_logs db)))) ;;
     ret (JObj [("shortest_sleep_duration", JNum shortest_sleep)])).

(** The rows of a month: [strftime('%Y', sleep_time) = str(year) AND
    strftime('%m', sleep_time) = f"{month:02d}"]. *)
Definition in_month (year month : Z) (r : SleepLogRow) : bool :=
  strftime_is E "%Y" (str_int year) r && strftime_is E "%m" (format_02d month) r.

(** [GET /sleep_logs/month/{year}/{month}] *)
Definition get_sleep_logs_by_month (year month : Z) : handler :=
  finally_close
    (logs <-- query (fun db => filter (in_month year month) (sleep_logs db)) ;;
     ret (JList (map dict_log logs))).

(** [GET /sleep_logs/year/{year}] *)
Definition get_sleep_logs_by_year (year : Z) : handler :=
  finally_close
    (logs <-- query (fun db =>
        filter (strftime_is E "%Y" (str_int year)) (sleep_logs db)) ;;
     ret (JList (map dict_log logs))).

(** [(datetime(year, month + 1, 1) - timedelta(days=1)).day] *)
Definition last_day_of_month (year month : Z) : result Z :=
  (first_of_next <- Datetime.new_datetime year (month + 1) 1 0 0 ;;
   last <- Datetime.sub_days first_of_next 1 ;;
   Return (Datetime.day last))%py.

Definition achieved_message (hours_per_night : float) : string :=
  "You achieved your goal of sleeping " +++ float_repr hours_per_night
  +++ " hours a day this month!".

Definition shortfall_message (total_hours_required : float)
  (total_logged_sleep : number) : string :=
  "You didn't sleep well this month. Your goal was to sleep "
  +++ float_repr total_hours_required
  +++ " hours, but you only logged " +++ number_format_2f total_logged_sleep
  +++ " hours.".

(** [SELECT SUM(duration) ... WHERE] the row is of the month, then [or 0]. *)
Definition total_logged (year month : Z) (db : DB) : number :=
  or_zero (sql_sum E (map duration (filter (in_month year month) (sleep_logs db)))).

(** [POST /sleep_goals/monthly_sleep_goal].  Nothing is caught here and the
    connection is only read from; the store is as it was. *)
Definition set_monthly_sleep_goal (goal : SleepGoal.t) : handler := fun db =>
  let connection := db_connection db in
  match last_day_of_month (SleepGoal.year goal) (SleepGoal.month goal) with
  | Raise e => (Raise e, durable connection)
  | Return days_in_month =>
      let total_hours_required :=
        PrimFloat.mul (SleepGoal.hours_per_night goal) (float_of_Z days_in_month) in
      let total_logged_sleep :=
        total_logged (SleepGoal.year goal) (SleepGoal.month goal) (work connection) in
      let message :=
        if float_ge (to_float total_logged_sleep) total_hours_required
        then achieved_message (SleepGoal.hours_per_night goal)
        else shortfall_message total_hours_required total_logged_sleep in
      (Return (JObj [("message", JStr message);
                     ("total_logged_sleep", JNum total_logged_sleep);
                     ("total_required_sleep", JNum (Float total_hours_required))]),
       durable connection)
  end.

(** [GET /sleep_logs/summary/{date}].  The response model has the fields
    date, total_duration and log_count; the average is computed and not
    among them. *)
Definition get_daily_sleep_summary (date : string) : handler :=
  finally_close
    (matching <-- select (logs_like date) ;;
     let total_duration := or_zero (sql_sum E (map duration matching)) in
     let log_count := rowcount matching in
     ret (JObj [("date", JStr date);
                ("total_duration", JNum (Float (to_float total_duration)));
                ("log_count", JNum (Int log_count))])).

(** [GET sleep_logs/history] *)
Definition get_sleep_log_history : handler :=
  finally_close
    (rows <-- query history ;;
     ret (JList (map dict_history rows))).

(** [POST /recommendations] *)
Definition add_recommendations (text : string) : handler :=
  finally_close
    (try_except
       (execute (insert_recommendation text) ;;;
        call commit ;;;
        ret (message "Recommendation added successfully"))
       (fun e => call rollback ;;;
                 raise (HTTPException 500 (ErrorStr e)))).

(** [GET /recommendations] *)
Definition recommendation_list : handler :=
  finally_close
    (rec <-- query sleep_recommendations ;;
     ret (JList (map dict_rec rec))).

(** [PUT /recommendations/{recommendation_id}] *)
Definition update_recommendation (recommendation_id : Z) (new_recommendation : string)
  : handler :=
  finally_close
    (try_except
       (updated <-- execute (update_recommendations new_recommendation recommendation_id) ;;
        if updated =? 0
        then raise (HTTPException 404 (Lit "Recommendation not found"))
        else call commit ;;;
             ret (message "Recommendation updated successfully"))
       (fun e => call rollback ;;;
                 raise (HTTPException 500 (ErrorStr e)))).

(** [DELETE /recommendations/{recommendation_id}] *)
Definition delete_recommendation (recommendation_id : Z) : handler :=
  finally_close
    (try_except
       (rec <-- query (fun db =>
                  fetchone (filter (fun r => rec_id r =? recommendation_id)
                                   (sleep_recommendations db))) ;;
        match rec with
        | None => raise none_not_subscriptable
        | Some r =>
            execute (insert_recommendation_history (recommendation r)) ;;;
            deleted <-- execute (delete_recommendations recommendation_id) ;;
            if deleted =? 0
            then raise (HTTPException 404 (Lit "Recommendation not found"))
            else call commit ;;;
                 ret (message "Recommendation deleted successfully")
        end)
       (fun e => call rollback ;;;
                 raise (HTTPException 500 (ErrorStr e)))).

(** [GET /recommendations/history] *)
Definition get_recommendation_history : handler :=
  finally_close
    (rec_history <-- query recommendation_history ;;
     ret (JList (map dict_rec_history rec_history))).

End Endpoints.


(** *** Routing

    The application keeps its routes in registration order: the four pages
    the framework adds for its documentation, then the endpoints in source
    order.  A request goes to the first route whose path pattern and method
    both match. *)

Inductive http_method : Type := GET | HEAD | POST | PUT | DELETE.

Definition method_eqb (a b : http_method) : bool :=
  match a, b with
  | GET, GET | HEAD, HEAD | POST, POST | PUT, PUT | DELETE, DELETE => true
  | _, _ => false
  end.

Inductive endpoint : Type :=
| Openapi | Swagger_ui_html | Swagger_ui_redirect | Redoc_html
| Add_sleep_log
| Get_all_sleep_logs
| Get_sleep_logs_by_date
| Update_sleep_log
| Delete_sleep_log
| Get_average_sleep_duration
| Get_frequent_sleep_time
| Get_frequent_wake_time
| Get_longest_sleep_duration
| Get_shortest_sleep_duration
| Get_sleep_logs_by_month
| Get_sleep_logs_by_year
| Set_monthly_sleep_goal
| Get_daily_sleep_summary
| Get_sleep_log_history
| Add_recommendations
| Recommendation_list
| Update_recommendation
| Delete_recommendation
| Get_recommendation_history.

Record route : Type := mk_route {
  methods : list http_method;
  path_template : string;
  target : endpoint
}.

Definition routes : list route := [
  mk_route [GET; HEAD] "/openapi.json" Openapi;
  mk_route [GET; HEAD] "/docs" Swagger_ui_html;
  mk_route [GET; HEAD] "/docs/oauth2-redirect" Swagger_ui_redirect;
  mk_route [GET; HEAD] "/redoc" Redoc_html;
  mk_route [POST] "/sleep_logs" Add_sleep_log;
  mk_route [GET] "/sleep_logs" Get_all_sleep_logs;
  mk_route [GET] "/sleep_logs/{date}" Get_sleep_logs_by_date;
  mk_route [PUT] "/sleep_logs/{log_id}" Update_sleep_log;
  mk_route [DELETE] "/sleep_logs/{log_id}" Delete_sleep_log;
  mk_route [GET] "/sleep_logs/average_duration" Get_average_sleep_duration;
  mk_route [GET] "/sleep_logs/frequent_sleep_time" Get_frequent_sleep_time;
  mk_route [GET] "/sleep_logs/frequent_wake_time" Get_frequent_wake_time;
  mk_route [GET] "/sleep_logs/longest_sleep" Get_longest_sleep_duration;
  mk_route [GET] "/sleep_logs/shortest_sleep" Get_shortest_sleep_duration;
  mk_route [GET] "/sleep_logs/month/{year}/{month}" Get_sleep_logs_by_month;
  mk_route [GET] "/sleep_logs/year/{year}" Get_sleep_logs_by_year;
  mk_route [POST] "/sleep_goals/monthly_sleep_goal" Set_monthly_sleep_goal;
  mk_route [GET] "/sleep_logs/summary/{date}" Get_daily_sleep_summary;
  mk_route [GET] "sleep_logs/history" Get_sleep_log_history;
  mk_route [POST] "/recommendations" Add_recommendations;
  mk_route [GET] "/recommendations" Recommendation_list;
  mk_route [PUT] "/recommendations/{recommendation_id}" Update_recommendation;
  mk_route [DELETE] "/recommendations/{recommendation_id}" Delete_recommendation;
  mk_route [GET] "/recommendations/history" Get_recommendation_history
].

Definition not_slash (c : ascii) : bool := negb (Ascii.eqb c "/").

(** The pattern of a path template: literal text as it stands, [{name}] as
    the group [(?P<name>[^/]+)], and [$] at the end.  [param] holds the name
    being read inside braces. *)
Fixpoint compile_from (template : string) (param : option string) : Re.regex :=
  match template with
  | EmptyString => Re.Dollar
  | String c rest =>
      match param with
      | None =>
          if Ascii.eqb c "{" then compile_from rest (Some "")
          else Re.Cat (Re.Chr c) (compile_from rest None)
      | Some name =>
          if Ascii.eqb c "}"
          then Re.Cat (Re.Grp name (Re.Plus not_slash)) (compile_from rest None)
          else compile_from rest (Some (name +++ String c ""))
      end
  end.

Definition compile_path (template : string) : Re.regex := compile_from template None.

Definition path_params : Type := list (string * string).

Inductive route_match : Type :=
| MatchNone
| MatchPartial (params : path_params)     (* the path fits, the method does not *)
| MatchFull (params : path_params).

Definition matches (r : route) (m : http_method) (path : string) : route_match :=
  match Re.re_match (compile_path (path_template r)) path with
  | None => MatchNone
  | Some (_, params) =>
      if existsb (method_eqb m) (methods r) then MatchFull params
      else MatchPartial params
  end.

Inductive resolution : Type :=
| Handled (e : endpoint) (params : path_params)
| MethodNotAllowed
| RedirectTo (path : string)
| NotFound.

(** The first full match; failing that, the first partial one. *)
Fixpoint scan (rs : list route) (m : http_method) (path : string) (partial : bool)
  : option resolution :=
  match rs with
  | [] => if partial then Some MethodNotAllowed else None
  | r :: rest =>
      match matches r m path with
      | MatchFull params => Some (Handled (target r) params)
      | MatchPartial _ => scan rest m path true
      | MatchNone => scan rest m path partial
      end
  end.

Definition ends_with_slash (path : string) : bool :=
  match String.length path with
  | O => false
  | S n => String.eqb (substring n 1 path) "/"
  end.

Definition toggled_slash (path : string) : string :=
  if ends_with_slash path then substring 0 (String.length path - 1) path
  else path +++ "/".

Definition matches_any (path : string) (m : http_method) : bool :=
  existsb (fun r => match matches r m path with MatchNone => false | _ => true end)
          routes.

(** The router: a route, or a redirect to the path with its final slash
    toggled when that one has a route, or not found. *)
Definition resolve (m : http_method) (path : string) : resolution :=
  match scan routes m path false with
  | Some r => r
  | None =>
      if negb (String.eqb path "/") && matches_any (toggled_slash path) m
      then RedirectTo (toggled_slash path)
      else NotFound
  end.

(** *** Requests and responses *)

(** What came with the request after the framework validated it against
    the endpoint's signature. *)
Inductive payload : Type :=
| NoPayload
| LogPayload (log : SleepLog.t)
| GoalPayload (goal : SleepGoal.t)
| TextPayload (text : string).

Inductive response : Type :=
| Ok200 (body : json)
| Failed (status_code : Z) (detail : text)   (* an HTTPException *)
| InternalServerError                        (* any other exception *)
| Unprocessable                              (* a parameter failed validation *)
| Page (e : endpoint)
| Redirect (path : string)
| NotFound404
| MethodNotAllowed405.

Definition status_of (r : response) : Z :=
  match r with
  | Ok200 _ => 200
  | Failed s _ => s
  | InternalServerError => 500
  | Unprocessable => 422
  | Page _ => 200
  | Redirect _ => 307
  | NotFound404 => 404
  | MethodNotAllowed405 => 405
  end.

Definition client_error (status : Z) : bool := (400 <=? status) && (status <? 500).
Definition server_error (status : Z) : bool := (500 <=? status) && (status <? 600).

(** How the framework answers with what a handler did. *)
Definition respond (r : result json) : response :=
  match r with
  | Return body => Ok200 body
  | Raise (HTTPException status detail) => Failed status detail
  | Raise _ => InternalServerError
  end.

Definition answer (h : handler) (db : DB) : response * DB :=
  let (r, db') := h db in (respond r, db').

Definition param (name : string) (params : path_params) : string :=
  match Re.group name params with
  | Some v => v
  | None => ""
  end.

Section Application.
Variable E : Env.

Definition with_int (name : string) (params : path_params) (k : Z -> DB -> response * DB)
  (db : DB) : response * DB :=
  match int_param E (param name params) with
  | Some n => k n db
  | None => (Unprocessable, db)
  end.

(** The endpoint function behind each route, applied to its parameters. *)
Definition run (e : endpoint) (params : path_params) (body : payload) (db : DB)
  : response * DB :=
  match e, body with
  | (Openapi | Swagger_ui_html | Swagger_ui_redirect | Redoc_html), _ => (Page e, db)
  | Add_sleep_log, LogPayload log => answer (add_sleep_log log) db
  | Get_all_sleep_logs, _ => answer get_all_sleep_logs db
  | Get_sleep_logs_by_date, _ => answer (get_sleep_logs_by_date (param "date" params)) db
  | Update_sleep_log, LogPayload log =>
      with_int "log_id" params (fun n => answer (update_sleep_log n log)) db
  | Delete_sleep_log, _ =>
      with_int "log_id" params (fun n => answer (delete_sleep_log n)) db
  | Get_average_sleep_duration, _ => answer (get_average_sleep_duration E) db
  | Get_frequent_sleep_time, _ => answer (get_frequent_sleep_time E) db
  | Get_frequent_wake_time, _ => answer (get_frequent_wake_time E) db
  | Get_longest_sleep_duration, _ => answer get_longest_sleep_duration db
  | Get_shortest_sleep_duration, _ => answer get_shortest_sleep_duration db
  | Get_sleep_logs_by_month, _ =>
      with_int "year" params (fun y =>
        with_int "month" params (fun m => answer (get_sleep_logs_by_month E y m))) db
  | Get_sleep_logs_by_year, _ =>
      with_int "year" params (fun y => answer (get_sleep_logs_by_year E y)) db
  | Set_monthly_sleep_goal, GoalPayload goal => answer (set_monthly_sleep_goal E goal) db
  | Get_daily_sleep_summary, _ =>
      answer (get_daily_sleep_summary E (param "date" params)) db
  | Get_sleep_log_history, _ => answer get_sleep_log_history db
  | Add_recommendations, TextPayload text => answer (add_recommendations text) db
  | Recommendation_list, _ => answer recommendation_list db
  | Update_recommendation, TextPayload text =>
      with_int "recommendation_id" params (fun n => answer (update_recommendation n text)) db
  | Delete_recommendation, _ =>
      with_int "recommendation_id" params (fun n => answer (delete_recommendation n)) db
  | Get_recommendation_history, _ => answer get_recommendation_history db
  | _, _ => (Unprocessable, db)
  end.

(** The application: route the request, run the endpoint, answer. *)
Definition app (m : http_method) (path : string) (body : payload) (db : DB)
  : response * DB :=
  match resolve m path with
  | Handled e params => run e params body db
  | MethodNotAllowed => (MethodNotAllowed405, db)
  | RedirectTo p => (Redirect p, db)
  | NotFound => (NotFound404, db)
  end.

End Application.

End Sleep.

(* ===================================================================== *)
(** ** Properties *)
(* ===================================================================== *)

Import Sql Sleep.

(** *** Vocabulary of the statements *)

(** Stores and requests the examples run on. *)
Definition empty_db : DB := mk_db [] [] [] [].

Definition one_night : SleepLogRow :=
  mk_log 1 "2024-05-01 22:00" "2024-05-02 06:30" 8.5%float.

Definition nap : SleepLogRow :=
  mk_log 2 "2024-06-10 13:00" "2024-06-10 14:00" 1%float.

Definition tip : RecommendationRow := mk_rec 1 "Keep a regular bedtime".

Definition sample_db : DB := mk_db [one_night; nap] [] [tip] [].

(** The handlers are straight-line code: running one is unfolding the
    connection monad. *)
Ltac run_handler :=
  unfold finally_close, try_except, bind, query, select, execute, call, eval, ret, raise,
    db_connection, commit, rollback, close;
  cbn [work durable fst snd].

(** No sleep log, or no recommendation, has the id [n]. *)
Definition log_absent (n : Z) (db : DB) : Prop :=
  forall r, In r (sleep_logs db) -> id r <> n.


(** The time from [sleep] to [wake] in seconds, counted on the calendar:
    whole days between the two dates, plus the difference of the two clock
    times. *)
Definition elapsed_seconds (wake sleep : Datetime.datetime) : Z :=
  (Datetime.toordinal wake - Datetime.toordinal sleep) * 86400
  + (Datetime.hour wake - Datetime.hour sleep) * 3600
  + (Datetime.minute wake - Datetime.minute sleep) * 60
  + (Datetime.second wake - Datetime.second sleep).

(** That time in hours, as a float. *)
Definition elapsed_hours (wake sleep : Datetime.datetime) : float :=
  PrimFloat.div (float_of_Z (elapsed_seconds wake sleep)) (float_of_Z 3600).

(** The exceptions the framework answers with their own status code. *)
Definition is_http (e : exn) : bool :=
  match e with
  | HTTPException _ _ => true
  | _ => false
  end.

(** A create request whose [sleep_time] is not a timestamp. *)
Definition unparsable_log : SleepLog.t :=
  SleepLog.mk "yesterday 10pm" "2024-05-02 06:30" 8.5%float.

(** The days of a month of the Gregorian calendar, leap years included. *)
Definition calendar_days (year month : Z) : Z :=
  match month with
  | 1 | 3 | 5 | 7 | 8 | 10 | 12 => 31
  | 4 | 6 | 9 | 11 => 30
  | 2 => if (year mod 4 =? 0) && (negb (year mod 100 =? 0) || (year mod 400 =? 0))
         then 29 else 28
  | _ => 0
  end.

(** The day of the month of the date one day before the first of the next
    month, on ordinals: what [last_day_of_month] returns when no check of
    [datetime] fails. *)
Definition last_day_ordinal (year month : Z) : Z :=
  let '(_, _, d) := Datetime._ord2ymd (Datetime._ymd2ord year (month + 1) 1 - 1) in d.

(** [p] on the [n] integers from [z] on. *)
Fixpoint holds_from (n : nat) (z : Z) (p : Z -> bool) : bool :=
  match n with
  | O => true
  | S n' => p z && holds_from n' (z + 1) p
  end.

(** A store whose only log, of February 2024, lasts 200 hours. *)
Definition february_db : DB :=
  mk_db [mk_log 1 "2024-02-01 00:00" "2024-02-09 08:00" 200%float] [] [] [].

(** Eight hours a night in February 2024: 29 nights, 232 hours. *)
Definition february_goal : SleepGoal.t := SleepGoal.mk 2024 2 8%float.

(** Neither infinite nor a NaN. *)
Definition finite (x : float) : bool :=
  match Prim2SF x with
  | S754_zero _ | S754_finite _ _ _ => true
  | S754_infinity _ | S754_nan => false
  end.

(** A text that ends in a point and two digits. *)
Definition two_decimals (s : string) : Prop :=
  exists whole d1 d2,
    s = whole +++ String "." (String d1 (String d2 ""))
    /\ is_digit d1 = true /\ is_digit d2 = true.

(** One segment of a path: not empty and without a slash. *)
Definition segment (d : string) : bool :=
  match d with
  | EmptyString => false
  | String _ _ => forallb not_slash (list_ascii_of_string d)
  end.

(** A handler that leaves every store as it finds it. *)
Definition read_only (h : handler) : Prop := forall db, snd (h db) = db.

(** A handler that either returns or leaves the store as it finds it. *)
Definition all_or_nothing (h : handler) : Prop :=
  forall db, snd (h db) = db \/ raised (fst (h db)) = false.



(** How many of the keys are [k]. *)
Definition occurrences (k : option string) (keys : list (option string)) : Z :=
  Z.of_nat (List.length (filter (key_eqb k) keys)).

(** The count the groups hold for the key [k]; 0 when they have no such
    group. *)
Definition count_in (groups : list (option string * Z)) (k : option string) : Z :=
  match find (fun g => key_eqb k (fst g)) groups with
  | Some g => snd g
  | None => 0
  end.

(** A date of the calendar with a time of day, to the minute. *)
Definition calendar_datetime (t : Datetime.datetime) : Prop :=
  1 <= Datetime.year t <= 9999
  /\ 1 <= Datetime.month t <= 12
  /\ 1 <= Datetime.day t <= calendar_days (Datetime.year t) (Datetime.month t)
  /\ 0 <= Datetime.hour t <= 23
  /\ 0 <= Datetime.minute t <= 59
  /\ Datetime.second t = 0.

(** A store whose only log, of February 2024, lasts 240 hours. *)
Definition rested_db : DB :=
  mk_db [mk_log 1 "2024-02-01 00:00" "2024-02-11 00:00" 240%float] [] [] [].

(** A handler that only queries. *)
Ltac reader := intros db; run_handler; reflexivity.

(** *** Lists and strings *)

Lemma append_assoc (a b c : string) : (a +++ b) +++ c = a +++ (b +++ c).
Proof.
  induction a as [|x a IH]; cbn; [reflexivity | now rewrite IH].
Qed.

Lemma filter_none {A : Type} (f : A -> bool) (l : list A) :
  (forall x, In x l -> f x = false) -> filter f l = [].
Proof.
  induction l as [|a l IH]; intros H; cbn; [reflexivity|].
  rewrite (H a (or_introl eq_refl)). apply IH. intros x Hx. apply H. now right.
Qed.

Lemma filter_all {A : Type} (f : A -> bool) (l : list A) :
  (forall x, In x l -> f x = true) -> filter f l = l.
Proof.
  induction l as [|a l IH]; intros H; cbn; [reflexivity|].
  rewrite (H a (or_introl eq_refl)). f_equal. apply IH. intros x Hx. apply H. now right.
Qed.

(** *** Date prefixes *)

Lemma some_suffix_mono (f g : string -> bool) :
  (forall s, f s = true -> g s = true) ->
  forall s, some_suffix f s = true -> some_suffix g s = true.
Proof.
  intros Hfg s. induction s as [|c s IH]; cbn; intros H.
  - rewrite orb_false_r in *. now apply Hfg.
  - apply orb_true_iff in H. apply orb_true_iff. destruct H as [H|H]; auto.
Qed.

Lemma like_percent (s : string) : like "%" s = true.
Proof.
  cbn. induction s as [|c s IH]; cbn; [reflexivity|]. exact IH.
Qed.

(** Whatever a pattern continues with, the text it matches is matched by
    the pattern cut there and closed with [%]. *)
Lemma like_cut (p t s : string) :
  like (p +++ t) s = true -> like (p +++ "%") s = true.
Proof.
  revert s. induction p as [|c p IH]; intros s H.
  - apply like_percent.
  - cbn in *. destruct (Ascii.eqb c "%").
    + eapply some_suffix_mono; [|exact H]. exact IH.
    + destruct s as [|d s]; [discriminate|].
      apply andb_true_iff in H. destruct H as [Hc Hs].
      apply andb_true_iff. split; [exact Hc | now apply IH].
Qed.

(** *** The limit on the pattern *)

Lemma utf8_length_nonneg (s : string) : 0 <= utf8_length s.
Proof.
  induction s as [|c s IH]; cbn [utf8_length]; [lia|].
  destruct (nat_of_ascii c <? 128)%nat; lia.
Qed.

Lemma utf8_length_append (a b : string) :
  utf8_length (a +++ b) = utf8_length a + utf8_length b.
Proof.
  induction a as [|c a IH]; cbn [String.append utf8_length]; [reflexivity|].
  rewrite IH. lia.
Qed.

(** A pattern within the limit stays within it when its prefix is cut
    shorter. *)
Lemma shorter_pattern_fits (p suffix : string) :
  like_too_complex ((p +++ suffix) +++ "%") = false ->
  like_too_complex (p +++ "%") = false.
Proof.
  unfold like_too_complex. rewrite !Z.ltb_ge, !utf8_length_append.
  pose proof (utf8_length_nonneg suffix). lia.
Qed.

(** The query either gives the rows that pass the test or is refused, and
    it is refused exactly when the pattern is too long and there is a row to
    test. *)
Lemma logs_like_rows (date : string) (db : DB) :
  like_too_complex (date +++ "%") = false ->
  logs_like date db = Return (filter (starts_like date) (sleep_logs db)).
Proof.
  intros H. unfold logs_like, where_like.
  destruct (sleep_logs db); [reflexivity|]. now rewrite H.
Qed.

Lemma logs_like_refused (date : string) (db : DB) :
  like_too_complex (date +++ "%") = true -> sleep_logs db <> [] ->
  logs_like date db = Raise too_complex.
Proof.
  intros H Hne. unfold logs_like, where_like.
  destruct (sleep_logs db); [congruence|]. now rewrite H.
Qed.

Lemma by_date_items (date : string) (db : DB) :
  like_too_complex (date +++ "%") = false ->
  items (fst (get_sleep_logs_by_date date db))
  = map dict_log (filter (starts_like date) (sleep_logs db)).
Proof.
  intros H. unfold get_sleep_logs_by_date. run_handler.
  rewrite (logs_like_rows date db H).
  now destruct (filter (starts_like date) (sleep_logs db)).
Qed.

(** A read that returns a row was not refused. *)
Lemma by_date_item (date : string) (db : DB) (row : json) :
  In row (items (fst (get_sleep_logs_by_date date db))) ->
  like_too_complex (date +++ "%") = false
  /\ In row (map dict_log (filter (starts_like date) (sleep_logs db))).
Proof.
  destruct (like_too_complex (date +++ "%")) eqn:H.
  - unfold get_sleep_logs_by_date. run_handler.
    unfold logs_like, where_like. destruct (sleep_logs db); [intros []|].
    rewrite H. intros [].
  - rewrite (by_date_items date db H). now split.
Qed.

(** C9. Date-prefix reads are monotonic in specificity: when the prefix [q]
    extends the prefix [p], every row returned for [q] is also returned for
    [p], in any state of the store. *)
Theorem date_prefix_monotonic (db : DB) (p suffix : string) (row : json) :
  In row (items (fst (get_sleep_logs_by_date (p +++ suffix) db))) ->
  In row (items (fst (get_sleep_logs_by_date p db))).
Proof.
  intros Hq. apply by_date_item in Hq. destruct Hq as [Hfits Hq].
  rewrite (by_date_items p db (shorter_pattern_fits p suffix Hfits)).
  revert Hq. rewrite !in_map_iff.
  intros [r [Hr Hin]]. exists r. split; [exact Hr|].
  apply filter_In in Hin. destruct Hin as [Hin Hlike].
  apply filter_In. split; [exact Hin|].
  unfold starts_like in *. rewrite append_assoc in Hlike.
  now apply like_cut with (t := suffix +++ "%").
Qed.

Lemma date_prefix_monotonic_witness :
  In (dict_log one_night)
     (items (fst (get_sleep_logs_by_date ("2024-05" +++ "-01") sample_db)))
  /\ In (dict_log one_night)
        (items (fst (get_sleep_logs_by_date "2024-05" sample_db))).
Proof.
  assert (H : In (dict_log one_night)
                 (items (fst (get_sleep_logs_by_date ("2024-05" +++ "-01") sample_db)))).
  { vm_compute. left. reflexivity. }
  split; [exact H|].
  exact (date_prefix_monotonic sample_db "2024-05" "-01" (dict_log one_night) H).
Defined.

(** *** Absent ids *)

Lemma no_log_selected (n : Z) (db : DB) :
  log_absent n db -> filter (fun r => id r =? n) (sleep_logs db) = [].
Proof.
  intros H. apply filter_none. intros r Hr. apply Z.eqb_neq. now apply H.
Qed.






(** *** Deleting a log that is there *)

Lemma selected_row (before after : list SleepLogRow) (r : SleepLogRow) :
  NoDup (map id (before ++ r :: after)) ->
  filter (fun x => id x =? id r) (before ++ r :: after) = [r]
  /\ filter (fun x => negb (id x =? id r)) (before ++ r :: after) = before ++ after.
Proof.
  intros Hnd. rewrite map_app in Hnd. cbn in Hnd.
  pose proof (NoDup_remove_2 _ _ _ Hnd) as Hfresh.
  assert (Hother : forall x, In x (before ++ after) -> (id x =? id r) = false).
  { intros x Hx. apply Z.eqb_neq. intros Heq. apply Hfresh.
    rewrite <- map_app, <- Heq. now apply in_map. }
  rewrite !filter_app. cbn. rewrite Z.eqb_refl. cbn. split.
  - rewrite (filter_none _ before), (filter_none _ after); [reflexivity| |];
      intros x Hx; apply Hother, in_or_app; auto.
  - rewrite (filter_all _ before), (filter_all _ after); [reflexivity| |];
      intros x Hx; rewrite Hother; auto; apply in_or_app; auto.
Qed.

(** C5. Deleting a sleep log whose id is in the store (ids being the key
    of the table) takes exactly that row out of the live table, the rows
    before and after it staying in place, and appends one history row with
    the same sleep time, wake time and duration after the history rows
    already there; the recommendation tables are untouched. *)
Theorem delete_present_archives_the_row (db : DB) (r : SleepLogRow) :
  NoDup (map id (sleep_logs db)) ->
  In r (sleep_logs db) ->
  exists before after,
    sleep_logs db = before ++ r :: after
    /\ delete_sleep_log (id r) db
       = (Return (message "Sleep log deleted successfully!"),
          mk_db (before ++ after)
                (history db ++ [mk_history (sleep_time r) (wake_time r) (duration r)])
                (sleep_recommendations db) (recommendation_history db)).
Proof.
  intros Hnd Hin. destruct (in_split _ _ Hin) as [before [after Hsplit]].
  exists before, after. split; [exact Hsplit|].
  destruct db as [logs hist recs rhist]. cbn in Hnd, Hsplit |- *. subst logs.
  destruct (selected_row before after r Hnd) as [Hsel Hrest].
  unfold delete_sleep_log, insert_history, delete_sleep_logs, with_history,
    with_sleep_logs.
  run_handler. cbn [sleep_logs]. rewrite Hsel. cbn. rewrite Hsel, Hrest. reflexivity.
Qed.

Lemma delete_present_archives_the_row_witness :
  exists before after,
    sleep_logs sample_db = before ++ one_night :: after
    /\ delete_sleep_log 1 sample_db
       = (Return (message "Sleep log deleted successfully!"),
          mk_db (before ++ after)
                [mk_history "2024-05-01 22:00" "2024-05-02 06:30" 8.5%float]
                [tip] []).
Proof.
  apply (delete_present_archives_the_row sample_db one_night).
  - cbn. repeat constructor; cbn; intuition (try discriminate).
  - cbn. auto.
Defined.

(** *** The empty table *)

(** C10. On an empty [sleep_logs] table the two frequent-hour operations
    return no object: the grouped query has no row, subscripting the absent
    row raises, nothing catches it, and the request ends as an internal
    server error; the average, longest and shortest aggregates return 0 on
    the same table. *)
Theorem frequent_hour_fails_on_empty_table (E : Env) (db : DB) :
  sleep_logs db = [] ->
  get_frequent_sleep_time E db = (Raise none_not_subscriptable, db)
  /\ get_frequent_wake_time E db = (Raise none_not_subscriptable, db)
  /\ fst (answer (get_frequent_sleep_time E) db) = InternalServerError
  /\ fst (answer (get_frequent_wake_time E) db) = InternalServerError
  /\ get_average_sleep_duration E db
     = (Return (JObj [("average_sleep_duration", JNum (Int 0))]), db)
  /\ get_longest_sleep_duration db
     = (Return (JObj [("longest_sleep_duration", JNum (Int 0))]), db)
  /\ get_shortest_sleep_duration db
     = (Return (JObj [("shortest_sleep_duration", JNum (Int 0))]), db).
Proof.
  intros Hempty.
  unfold answer, get_frequent_sleep_time, get_frequent_wake_time,
    get_average_sleep_duration, get_longest_sleep_duration,
    get_shortest_sleep_duration, frequent_hour.
  run_handler. rewrite Hempty. cbn. repeat split.
Qed.

Lemma frequent_hour_fails_on_empty_table_witness :
  get_frequent_sleep_time sqlite3 empty_db = (Raise none_not_subscriptable, empty_db)
  /\ get_frequent_wake_time sqlite3 empty_db = (Raise none_not_subscriptable, empty_db)
  /\ fst (answer (get_frequent_sleep_time sqlite3) empty_db) = InternalServerError
  /\ fst (answer (get_frequent_wake_time sqlite3) empty_db) = InternalServerError
  /\ get_average_sleep_duration sqlite3 empty_db
     = (Return (JObj [("average_sleep_duration", JNum (Int 0))]), empty_db)
  /\ get_longest_sleep_duration empty_db
     = (Return (JObj [("longest_sleep_duration", JNum (Int 0))]), empty_db)
  /\ get_shortest_sleep_duration empty_db
     = (Return (JObj [("shortest_sleep_duration", JNum (Int 0))]), empty_db).
Proof.
  apply (frequent_hour_fails_on_empty_table sqlite3 empty_db). reflexivity.
Defined.

(** *** Durations *)

Lemma total_seconds_of_difference (wake sleep : Datetime.datetime) :
  Datetime.total_seconds (Datetime.sub_datetime wake sleep)
  = float_of_Z (elapsed_seconds wake sleep).
Proof.
  unfold Datetime.total_seconds, Datetime.sub_datetime, elapsed_seconds.
  cbn [Datetime.days Datetime.seconds Datetime.microseconds]. f_equal.
  set (d := Datetime.toordinal wake - Datetime.toordinal sleep).
  set (s := (Datetime.hour wake - Datetime.hour sleep) * 3600
            + (Datetime.minute wake - Datetime.minute sleep) * 60
            + (Datetime.second wake - Datetime.second sleep)).
  rewrite Z.add_0_r, Z.div_mul by (vm_compute; discriminate).
  pose proof (Z.div_mod s 86400 ltac:(lia)). lia.
Qed.

Lemma hours_between_elapsed (wake sleep : Datetime.datetime) :
  hours_between wake sleep = elapsed_hours wake sleep.
Proof.
  unfold hours_between, elapsed_hours. now rewrite total_seconds_of_difference.
Qed.

Lemma first_selected {A : Type} (f : A -> bool) (l : list A) :
  (exists x, In x l /\ f x = true) -> exists y, fetchone (filter f l) = Some y.
Proof.
  intros [x [Hin Hf]]. induction l as [|a l IH]; [destruct Hin|]. cbn.
  destruct (f a) eqn:Ha; [now exists a|].
  destruct Hin as [->|Hin]; [congruence | now apply IH].
Qed.

(** C2. When both timestamps of the request parse, what create stores, and
    what update writes over the addressed row, is the two texts as sent
    together with the duration computed from the parsed timestamps: the
    time from sleep to wake, in hours.  The duration field of the request
    body plays no part: two requests that differ only in it leave the same
    store. *)
Theorem stored_duration_is_recomputed (db : DB) (log : SleepLog.t)
  (sleep wake : Datetime.datetime) :
  Datetime.strptime (SleepLog.sleep_time log) = Return sleep ->
  Datetime.strptime (SleepLog.wake_time log) = Return wake ->
  add_sleep_log log db
  = (Return (message "Sleep log added successfully!"),
     mk_db (sleep_logs db
            ++ [mk_log (next_id (map id (sleep_logs db)))
                       (SleepLog.sleep_time log) (SleepLog.wake_time log)
                       (elapsed_hours wake sleep)])
           (history db) (sleep_recommendations db) (recommendation_history db))
  /\ (forall n,
        (exists r, In r (sleep_logs db) /\ id r = n) ->
        update_sleep_log n log db
        = (Return (message "Sleep log updated successfully!"),
           mk_db (map (fun r => if id r =? n
                                then mk_log (id r) (SleepLog.sleep_time log)
                                            (SleepLog.wake_time log)
                                            (elapsed_hours wake sleep)
                                else r)
                      (sleep_logs db))
                 (history db) (sleep_recommendations db) (recommendation_history db)))
  /\ (forall supplied n,
        let other :=
          SleepLog.mk (SleepLog.sleep_time log) (SleepLog.wake_time log) supplied in
        add_sleep_log other db = add_sleep_log log db
        /\ update_sleep_log n other db = update_sleep_log n log db).
Proof.
  intros Hs Hw. split; [|split].
  - unfold add_sleep_log, insert_sleep_log, with_sleep_logs. rewrite Hs, Hw.
    run_handler. now rewrite hours_between_elapsed.
  - intros n Hex. unfold update_sleep_log, update_sleep_logs, with_sleep_logs.
    run_handler.
    destruct (first_selected (fun r => id r =? n) (sleep_logs db)) as [y Hy].
    { destruct Hex as [r [Hin Hid]]. exists r. split; [exact Hin|]. now apply Z.eqb_eq. }
    rewrite Hy, Hs, Hw. cbn -[hours_between]. now rewrite hours_between_elapsed.
  - (* neither handler reads the duration field *)
    intros supplied n other. split; reflexivity.
Qed.

Lemma stored_duration_is_recomputed_witness :
  add_sleep_log (SleepLog.mk "2024-05-03 23:15" "2024-05-04 07:00" 99%float) sample_db
  = (Return (message "Sleep log added successfully!"),
     mk_db [one_night; nap; mk_log 3 "2024-05-03 23:15" "2024-05-04 07:00" 7.75%float]
           [] [tip] [])
  /\ add_sleep_log (SleepLog.mk "2024-05-03 23:15" "2024-05-04 07:00" 1%float) sample_db
     = add_sleep_log (SleepLog.mk "2024-05-03 23:15" "2024-05-04 07:00" 99%float)
                     sample_db.
Proof.
  pose proof (stored_duration_is_recomputed sample_db
                (SleepLog.mk "2024-05-03 23:15" "2024-05-04 07:00" 99%float)
                (Datetime.mk_datetime 2024 5 3 23 15 0)
                (Datetime.mk_datetime 2024 5 4 7 0 0)
                ltac:(vm_compute; reflexivity) ltac:(vm_compute; reflexivity))
    as [Hadd [_ Hsame]].
  split.
  - rewrite Hadd. vm_compute. reflexivity.
  - exact (proj1 (Hsame 1%float 0)).
Defined.

(** *** Timestamps that do not parse *)

Lemma unhandled_is_internal_error (e : exn) :
  is_http e = false -> respond (Raise e) = InternalServerError.
Proof. destruct e; cbn; [reflexivity .. | discriminate]. Qed.

Lemma int_of_str_raises (s : string) (e : exn) :
  int_of_str s = Raise e -> is_http e = false.
Proof.
  unfold int_of_str. destruct (lstrip s); [intros [= <-]; reflexivity|].
  destruct (digits_value 0 _); [discriminate | intros [= <-]; reflexivity].
Qed.

Lemma field_raises (name : string) (caps : Re.captures) (e : exn) :
  Datetime.field name caps = Raise e -> is_http e = false.
Proof.
  unfold Datetime.field. destruct (Re.group name caps).
  - apply int_of_str_raises.
  - intros [= <-]. reflexivity.
Qed.

Lemma new_datetime_raises (y m d hh mm : Z) (e : exn) :
  Datetime.new_datetime y m d hh mm = Raise e -> is_http e = false.
Proof.
  unfold Datetime.new_datetime.
  repeat match goal with
         | |- context [if ?b then _ else _] => destruct b
         end; intros [= <-]; reflexivity.
Qed.

(** [strptime] raises no HTTP exception: what it raises, unless caught,
    ends the request as an internal server error. *)
Lemma strptime_raises (s : string) (e : exn) :
  Datetime.strptime s = Raise e -> is_http e = false.
Proof.
  unfold Datetime.strptime.
  destruct (Re.re_match Datetime.format_regex s) as [[rest found]|];
    [|intros [= <-]; reflexivity].
  destruct (negb (String.eqb rest "")); [intros [= <-]; reflexivity|].
  destruct (Datetime.field "Y" found) eqn:HY; cbn; [|intros [= <-]; eauto using field_raises].
  destruct (Datetime.field "m" found) eqn:Hm; cbn; [|intros [= <-]; eauto using field_raises].
  destruct (Datetime.field "d" found) eqn:Hd; cbn; [|intros [= <-]; eauto using field_raises].
  destruct (Datetime.field "H" found) eqn:HH; cbn; [|intros [= <-]; eauto using field_raises].
  destruct (Datetime.field "M" found) eqn:HM; cbn; [|intros [= <-]; eauto using field_raises].
  apply new_datetime_raises.
Qed.

(** C7, as the code has it. A create request in which [sleep_time] or
    [wake_time] does not parse inserts no row, and the request ends with the
    exception [strptime] raised, uncaught: an internal server error (status
    500), not a client error. *)
Theorem unparsable_create_is_internal_error (log : SleepLog.t) (db : DB) :
  raised (Datetime.strptime (SleepLog.sleep_time log)) = true
  \/ raised (Datetime.strptime (SleepLog.wake_time log)) = true ->
  exists e,
    add_sleep_log log db = (Raise e, db)
    /\ is_http e = false
    /\ answer (add_sleep_log log) db = (InternalServerError, db)
    /\ client_error (status_of (fst (answer (add_sleep_log log) db))) = false.
Proof.
  intros H.
  assert (Hrun : exists e, add_sleep_log log db = (Raise e, db) /\ is_http e = false).
  { unfold add_sleep_log.
    destruct (Datetime.strptime (SleepLog.sleep_time log)) as [st|e1] eqn:Hs.
    - destruct (Datetime.strptime (SleepLog.wake_time log)) as [wt|e2] eqn:Hw.
      + destruct H as [H|H]; discriminate H.
      + exists e2. split; [reflexivity | now apply strptime_raises in Hw].
    - exists e1. split; [reflexivity | now apply strptime_raises in Hs]. }
  destruct Hrun as [e [Hrun Hplain]]. exists e.
  assert (Hanswer : answer (add_sleep_log log) db = (InternalServerError, db)).
  { unfold answer. rewrite Hrun. now rewrite unhandled_is_internal_error. }
  repeat split; try assumption. now rewrite Hanswer.
Qed.

Lemma unparsable_create_is_internal_error_witness :
  exists e,
    add_sleep_log unparsable_log sample_db = (Raise e, sample_db)
    /\ is_http e = false
    /\ answer (add_sleep_log unparsable_log) sample_db = (InternalServerError, sample_db)
    /\ client_error (status_of (fst (answer (add_sleep_log unparsable_log) sample_db)))
       = false.
Proof.
  apply (unparsable_create_is_internal_error unparsable_log sample_db).
  left. vm_compute. reflexivity.
Defined.

(** C7, as stated, fails: this create request carries a [sleep_time] that
    does not parse, and its answer has status 500, which is a server error
    and not a client error. *)
Lemma unparsable_create_not_client_error :
  raised (Datetime.strptime (SleepLog.sleep_time unparsable_log)) = true
  /\ status_of (fst (answer (add_sleep_log unparsable_log) empty_db)) = 500
  /\ client_error (status_of (fst (answer (add_sleep_log unparsable_log) empty_db)))
     = false
  /\ server_error (status_of (fst (answer (add_sleep_log unparsable_log) empty_db)))
     = true.
Proof. vm_compute. repeat split. Qed.

(** *** The monthly goal *)

(** The calendar repeats every 400 years, and so does the arithmetic of the
    [datetime] module; one period is checked by computation. *)
Lemma is_leap_period (y : Z) : Datetime._is_leap (y + 400) = Datetime._is_leap y.
Proof.
  unfold Datetime._is_leap.
  replace ((y + 400) mod 4) with (y mod 4) by (Z.div_mod_to_equations; lia).
  replace ((y + 400) mod 100) with (y mod 100) by (Z.div_mod_to_equations; lia).
  replace ((y + 400) mod 400) with (y mod 400) by (Z.div_mod_to_equations; lia).
  reflexivity.
Qed.

Lemma ymd2ord_period (y m d : Z) :
  Datetime._ymd2ord (y + 400) m d = Datetime._ymd2ord y m d + Datetime._DI400Y.
Proof.
  unfold Datetime._ymd2ord, Datetime._days_before_month, Datetime._days_before_year,
    Datetime._DI400Y.
  rewrite is_leap_period.
  Z.div_mod_to_equations. lia.
Qed.

Lemma ord2ymd_period (n : Z) :
  Datetime._ord2ymd (n + Datetime._DI400Y)
  = let '(y, m, d) := Datetime._ord2ymd n in (y + 400, m, d).
Proof.
  unfold Datetime._ord2ymd.
  replace (n + Datetime._DI400Y - 1) with (n - 1 + 1 * Datetime._DI400Y) by lia.
  rewrite Z.div_add, Z.mod_add by (vm_compute; discriminate).
  cbv zeta.
  set (r := (n - 1) mod Datetime._DI400Y).
  set (q := (n - 1) / Datetime._DI400Y).
  repeat match goal with
         | |- context [if ?b then _ else _] => destruct b
         end; f_equal; try f_equal; lia.
Qed.

Lemma calendar_days_period (y m : Z) : calendar_days (y + 400) m = calendar_days y m.
Proof.
  unfold calendar_days.
  replace ((y + 400) mod 4) with (y mod 4) by (Z.div_mod_to_equations; lia).
  replace ((y + 400) mod 100) with (y mod 100) by (Z.div_mod_to_equations; lia).
  replace ((y + 400) mod 400) with (y mod 400) by (Z.div_mod_to_equations; lia).
  reflexivity.
Qed.

Lemma last_day_ordinal_period (y m : Z) :
  last_day_ordinal (y + 400) m = last_day_ordinal y m.
Proof.
  unfold last_day_ordinal. rewrite ymd2ord_period.
  replace (Datetime._ymd2ord y (m + 1) 1 + Datetime._DI400Y - 1)
    with (Datetime._ymd2ord y (m + 1) 1 - 1 + Datetime._DI400Y) by lia.
  rewrite ord2ymd_period.
  now destruct (Datetime._ord2ymd (Datetime._ymd2ord y (m + 1) 1 - 1)) as [[y' m'] d'].
Qed.

Lemma first_period_checked :
  holds_from (Z.to_nat 400) 1
    (fun y => holds_from (Z.to_nat 11) 1
                (fun m => last_day_ordinal y m =? calendar_days y m)) = true.
Proof. vm_compute. reflexivity. Qed.

Lemma holds_from_spec (p : Z -> bool) (n : nat) :
  forall z, holds_from n z p = true ->
  forall k, z <= k < z + Z.of_nat n -> p k = true.
Proof.
  induction n as [|n IH]; intros z H k Hk; [lia|].
  cbn [holds_from] in H. apply andb_true_iff in H. destruct H as [Hz Hrest].
  destruct (Z.eq_dec k z) as [->|Hne]; [exact Hz|].
  apply (IH (z + 1) Hrest). lia.
Qed.

Lemma last_day_ordinal_first_period (y0 m : Z) :
  1 <= y0 <= 400 -> 1 <= m <= 11 ->
  last_day_ordinal y0 m = calendar_days y0 m.
Proof.
  intros Hy Hm.
  pose proof (holds_from_spec _ _ _ first_period_checked y0 ltac:(lia)) as Hyear.
  cbv beta in Hyear.
  pose proof (holds_from_spec _ _ _ Hyear m ltac:(lia)) as Hmonth.
  cbv beta in Hmonth. now apply Z.eqb_eq.
Qed.

Lemma last_day_ordinal_in_period (k : nat) (y0 m : Z) :
  1 <= y0 <= 400 -> 1 <= m <= 11 ->
  last_day_ordinal (y0 + 400 * Z.of_nat k) m = calendar_days (y0 + 400 * Z.of_nat k) m.
Proof.
  intros Hy Hm. induction k as [|k IH].
  - rewrite Z.add_0_r. now apply last_day_ordinal_first_period.
  - replace (y0 + 400 * Z.of_nat (S k)) with (y0 + 400 * Z.of_nat k + 400) by lia.
    now rewrite last_day_ordinal_period, calendar_days_period.
Qed.

Lemma last_day_ordinal_calendar (y m : Z) :
  1 <= y -> 1 <= m <= 11 -> last_day_ordinal y m = calendar_days y m.
Proof.
  intros Hy Hm.
  replace y with ((y - 1) mod 400 + 1 + 400 * Z.of_nat (Z.to_nat ((y - 1) / 400))).
  - apply last_day_ordinal_in_period; [|exact Hm].
    pose proof (Z.mod_pos_bound (y - 1) 400 ltac:(lia)). lia.
  - rewrite Z2Nat.id by (apply Z.div_pos; lia).
    pose proof (Z.div_mod (y - 1) 400 ltac:(lia)). lia.
Qed.

Lemma first_of_next_month (y m : Z) :
  1 <= y <= 9999 -> 1 <= m <= 11 ->
  Datetime.new_datetime y (m + 1) 1 0 0 = Return (Datetime.mk_datetime y (m + 1) 1 0 0 0).
Proof.
  intros Hy Hm.
  unfold Datetime.new_datetime, Datetime.fits_c_int, Datetime.MINYEAR, Datetime.MAXYEAR.
  assert (Hdim : 1 <= Datetime._days_in_month y (m + 1)).
  { unfold Datetime._days_in_month.
    assert (H : m = 1 \/ m = 2 \/ m = 3 \/ m = 4 \/ m = 5 \/ m = 6 \/ m = 7
                \/ m = 8 \/ m = 9 \/ m = 10 \/ m = 11) by lia.
    repeat (destruct H as [->|H]; [cbn; destruct (Datetime._is_leap y); cbn; lia|]).
    subst. cbn. lia. }
  repeat match goal with
         | |- context [?a <=? ?b] =>
             replace (a <=? b) with true by (symmetry; apply Z.leb_le; lia)
         end.
  reflexivity.
Qed.

Lemma last_of_month_ordinal (y m : Z) :
  1 <= y <= 9999 -> 1 <= m <= 11 ->
  1 <= Datetime._ymd2ord y (m + 1) 1 - 1 <= Datetime._MAXORDINAL.
Proof.
  intros Hy Hm.
  unfold Datetime._ymd2ord, Datetime._days_before_year, Datetime._days_before_month,
    Datetime._MAXORDINAL.
  assert (Hb : 31 <= Datetime._DAYS_BEFORE_MONTH (m + 1) <= 334).
  { assert (H : m = 1 \/ m = 2 \/ m = 3 \/ m = 4 \/ m = 5 \/ m = 6 \/ m = 7
                \/ m = 8 \/ m = 9 \/ m = 10 \/ m = 11) by lia.
    repeat (destruct H as [->|H]; [cbn; lia|]). subst. cbn. lia. }
  destruct ((2 <? m + 1) && Datetime._is_leap y); Z.div_mod_to_equations; lia.
Qed.

(** From January to November of every year the calendar has, the handler's
    date arithmetic gives the number of days of the month. *)
Lemma last_day_before_december (year month : Z) :
  1 <= year <= 9999 -> 1 <= month <= 11 ->
  last_day_of_month year month = Return (calendar_days year month).
Proof.
  intros Hy Hm. unfold last_day_of_month.
  rewrite (first_of_next_month _ _ Hy Hm). cbn [rbind].
  unfold Datetime.sub_days, Datetime.toordinal. cbn [Datetime.year Datetime.month Datetime.day].
  pose proof (last_of_month_ordinal _ _ Hy Hm) as [Hlo Hhi].
  apply Z.leb_le in Hlo, Hhi. rewrite Hlo, Hhi. cbn [andb].
  rewrite <- (last_day_ordinal_calendar year month) by lia.
  unfold last_day_ordinal.
  now destruct (Datetime._ord2ymd (Datetime._ymd2ord year (month + 1) 1 - 1)) as [[y' m'] d'].
Qed.

(** X1. From January to November of the years 1 to 9999 the goal evaluation
    returns its totals, the hours required being the hours per night times
    the days the month has in the calendar, and leaves the store as it was. *)
Lemma goal_before_december (E : Env) (goal : SleepGoal.t) (db : DB) :
  1 <= SleepGoal.year goal <= 9999 -> 1 <= SleepGoal.month goal <= 11 ->
  exists text,
    set_monthly_sleep_goal E goal db
    = (Return (JObj [("message", JStr text);
                     ("total_logged_sleep",
                      JNum (total_logged E (SleepGoal.year goal) (SleepGoal.month goal) db));
                     ("total_required_sleep",
                      JNum (Float (PrimFloat.mul (SleepGoal.hours_per_night goal)
                                     (float_of_Z (calendar_days (SleepGoal.year goal)
                                                    (SleepGoal.month goal))))))]),
       db).
Proof.
  intros Hy Hm. unfold set_monthly_sleep_goal.
  rewrite (last_day_before_december _ _ Hy Hm). cbn [db_connection work durable].
  eexists. reflexivity.
Qed.

Lemma goal_before_december_witness :
  exists text,
    set_monthly_sleep_goal sqlite3 february_goal february_db
    = (Return (JObj [("message", JStr text);
                     ("total_logged_sleep", JNum (total_logged sqlite3 2024 2 february_db));
                     ("total_required_sleep",
                      JNum (Float (PrimFloat.mul 8%float
                                     (float_of_Z (calendar_days 2024 2)))))]),
       february_db).
Proof.
  apply (goal_before_december sqlite3 february_goal february_db); cbn; lia.
Defined.

(** C1 fails for December. For every year and every number of hours, the
    goal evaluation for month 12 builds [datetime(year, 13, 1)], which
    raises; the handler returns no totals, and the request ends as an
    internal server error with the store as it was. *)
Theorem december_goal_raises (E : Env) (db : DB) (year : Z) (hours : float) :
  exists e,
    set_monthly_sleep_goal E (SleepGoal.mk year 12 hours) db = (Raise e, db)
    /\ is_http e = false
    /\ fst (answer (set_monthly_sleep_goal E (SleepGoal.mk year 12 hours)) db)
       = InternalServerError.
Proof.
  assert (Hday : exists e, last_day_of_month year 12 = Raise e /\ is_http e = false).
  { unfold last_day_of_month, Datetime.new_datetime.
    change (12 + 1) with 13.
    destruct (Datetime.fits_c_int year); cbn.
    - destruct ((Datetime.MINYEAR <=? year) && (year <=? Datetime.MAXYEAR)); cbn;
        eexists; split; reflexivity.
    - eexists; split; reflexivity. }
  destruct Hday as [e [Hday Hplain]]. exists e.
  assert (Hrun : set_monthly_sleep_goal E (SleepGoal.mk year 12 hours) db = (Raise e, db)).
  { unfold set_monthly_sleep_goal. cbn [SleepGoal.year SleepGoal.month].
    now rewrite Hday. }
  repeat split; try assumption.
  unfold answer. rewrite Hrun. now apply unhandled_is_internal_error.
Qed.

Lemma digit_text (k : Z) :
  0 <= k < 10 -> exists c, str_int k = String c "" /\ is_digit c = true.
Proof.
  intros Hk.
  assert (H : k = 0 \/ k = 1 \/ k = 2 \/ k = 3 \/ k = 4 \/ k = 5 \/ k = 6
              \/ k = 7 \/ k = 8 \/ k = 9) by lia.
  repeat (destruct H as [->|H]; [eexists; split; reflexivity|]).
  subst. eexists; split; reflexivity.
Qed.

Lemma fixed2_two_decimals (sign : string) (h : Z) :
  two_decimals (sign +++ fixed2 h).
Proof.
  unfold fixed2.
  destruct (digit_text (h mod 100 / 10)) as [d1 [H1 Hd1]].
  { pose proof (Z.mod_pos_bound h 100 ltac:(lia)).
    split; [apply Z.div_pos; lia | apply Z.div_lt_upper_bound; lia]. }
  destruct (digit_text (h mod 10)) as [d2 [H2 Hd2]].
  { apply Z.mod_pos_bound. lia. }
  rewrite H1, H2. exists (sign +++ str_int (h / 100)), d1, d2.
  split; [|split; assumption]. now rewrite append_assoc.
Qed.

(** [f"{x:.2f}"] of a finite float ends in a point and two digits. *)
Lemma format_2f_two_decimals (x : float) :
  finite x = true -> two_decimals (format_2f x).
Proof.
  unfold finite, format_2f. destruct (Prim2SF x) as [s|s| |s m e]; try discriminate.
  - intros _. exists (sign_text s +++ "0"), "0"%char, "0"%char.
    split; [|split; reflexivity]. now rewrite append_assoc.
  - intros _. apply fixed2_two_decimals.
Qed.

(** C8, as the code has it. When the hours logged in the month are strictly
    below the hours required, the answer carries the shortfall message, in
    which the hours logged are written with two decimal places and the
    hours required as the float prints by default (its shortest decimal
    form: 232.0, not 232.00). *)
Theorem shortfall_message_rendering (E : Env) (goal : SleepGoal.t) (db : DB)
  (days_in_month : Z) :
  last_day_of_month (SleepGoal.year goal) (SleepGoal.month goal) = Return days_in_month ->
  let required :=
    PrimFloat.mul (SleepGoal.hours_per_night goal) (float_of_Z days_in_month) in
  let logged := total_logged E (SleepGoal.year goal) (SleepGoal.month goal) db in
  float_lt (to_float logged) required = true ->
  set_monthly_sleep_goal E goal db
  = (Return (JObj [("message",
                    JStr ("You didn't sleep well this month. Your goal was to sleep "
                          +++ float_repr required
                          +++ " hours, but you only logged "
                          +++ number_format_2f logged +++ " hours."));
                   ("total_logged_sleep", JNum logged);
                   ("total_required_sleep", JNum (Float required))]),
     db)
  /\ (finite (to_float logged) = true -> two_decimals (number_format_2f logged)).
Proof.
  intros Hdays required logged Hlt. split.
  - unfold set_monthly_sleep_goal. rewrite Hdays.
    cbn [db_connection work durable]. fold required. fold logged.
    assert (Hge : float_ge (to_float logged) required = false).
    { unfold float_lt in Hlt. unfold float_ge.
      now destruct (PrimFloat.compare (to_float logged) required). }
    rewrite Hge. reflexivity.
  - apply format_2f_two_decimals.
Qed.

Lemma shortfall_message_rendering_witness :
  set_monthly_sleep_goal sqlite3 february_goal february_db
  = (Return (JObj [("message",
                    JStr "You didn't sleep well this month. Your goal was to sleep 232.0 hours, but you only logged 200.00 hours.");
                   ("total_logged_sleep", JNum (Float 200%float));
                   ("total_required_sleep", JNum (Float 232%float))]),
     february_db).
Proof.
  pose proof (shortfall_message_rendering sqlite3 february_goal february_db 29
                ltac:(vm_compute; reflexivity) ltac:(vm_compute; reflexivity))
    as [Hrun _].
  rewrite Hrun. vm_compute. reflexivity.
Defined.

(** C8, as stated, fails: for the goal of 8 hours a night in February 2024
    against 200 hours logged, the hours logged are below the 232 required,
    and the message holds "232.0" where two decimal places would give
    "232.00", a text the message does not contain. *)
Lemma shortfall_message_required_not_two_decimals :
  float_lt 200%float (PrimFloat.mul 8%float (float_of_Z 29)) = true
  /\ fst (set_monthly_sleep_goal sqlite3 february_goal february_db)
     = Return (JObj [("message",
                      JStr "You didn't sleep well this month. Your goal was to sleep 232.0 hours, but you only logged 200.00 hours.");
                     ("total_logged_sleep", JNum (Float 200%float));
                     ("total_required_sleep", JNum (Float 232%float))])
  /\ format_2f (PrimFloat.mul 8%float (float_of_Z 29)) = "232.00"
  /\ contains "232.00"
       "You didn't sleep well this month. Your goal was to sleep 232.0 hours, but you only logged 200.00 hours."
     = false.
Proof. vm_compute. repeat split. Qed.

(** *** Routing of the aggregate paths *)

Lemma date_read_is_a_list (date : string) (db : DB) :
  like_too_complex (date +++ "%") = false ->
  exists rows, fst (answer (get_sleep_logs_by_date date) db) = Ok200 (JList rows).
Proof.
  intros H. unfold answer, get_sleep_logs_by_date. run_handler.
  rewrite (logs_like_rows date db H).
  destruct (filter (starts_like date) (sleep_logs db)); eexists; reflexivity.
Qed.

Lemma routed_to_date_read (E : Env) (name : string) (db : DB) :
  resolve GET ("/sleep_logs/" +++ name) = Handled Get_sleep_logs_by_date [("date", name)] ->
  app E GET ("/sleep_logs/" +++ name) NoPayload db
  = answer (get_sleep_logs_by_date name) db.
Proof.
  intros Hroute. unfold app. rewrite Hroute. cbn [run].
  unfold param. cbn [Re.group]. now rewrite String.eqb_refl.
Qed.

(** C6 fails. The route [/sleep_logs/{date}] is registered before the
    literal aggregate paths and its pattern matches each of them, so in
    every state of the store a GET of [/sleep_logs/average_duration], and of
    the four other literal aggregate paths, is answered by the date-prefix
    read with the path's last segment as the date.  The answer is a list of
    rows; it is never the object the aggregate operation returns. *)
Theorem aggregate_paths_reach_the_date_read (E : Env) (db : DB) :
  app E GET "/sleep_logs/average_duration" NoPayload db
  = answer (get_sleep_logs_by_date "average_duration") db
  /\ app E GET "/sleep_logs/frequent_sleep_time" NoPayload db
     = answer (get_sleep_logs_by_date "frequent_sleep_time") db
  /\ app E GET "/sleep_logs/frequent_wake_time" NoPayload db
     = answer (get_sleep_logs_by_date "frequent_wake_time") db
  /\ app E GET "/sleep_logs/longest_sleep" NoPayload db
     = answer (get_sleep_logs_by_date "longest_sleep") db
  /\ app E GET "/sleep_logs/shortest_sleep" NoPayload db
     = answer (get_sleep_logs_by_date "shortest_sleep") db
  /\ fst (app E GET "/sleep_logs/average_duration" NoPayload db)
     <> fst (answer (get_average_sleep_duration E) db).
Proof.
  repeat match goal with
         | |- _ /\ _ => split
         | |- app _ _ _ _ _ = _ =>
             apply (routed_to_date_read E _ db); vm_compute; reflexivity
         end.
  pose proof (routed_to_date_read E "average_duration" db
                ltac:(vm_compute; reflexivity)) as Hroute.
  change ("/sleep_logs/" +++ "average_duration")
    with "/sleep_logs/average_duration" in Hroute.
  rewrite Hroute.
  destruct (date_read_is_a_list "average_duration" db eq_refl) as [rows ->].
  unfold answer, get_average_sleep_duration. run_handler. discriminate.
Qed.

(** *** Ids stay distinct *)

Lemma below_next_id (ids : list Z) (n : Z) : In n ids -> n < next_id ids.
Proof.
  unfold next_id. induction ids as [|a ids IH]; cbn; [intros []|].
  intros [->|Hin]; [lia|]. specialize (IH Hin). lia.
Qed.

Lemma next_id_fresh (ids : list Z) : ~ In (next_id ids) ids.
Proof. intros Hin. apply below_next_id in Hin. lia. Qed.

Lemma NoDup_snoc (l : list Z) (a : Z) : NoDup l -> ~ In a l -> NoDup (l ++ [a]).
Proof.
  intros Hl Ha. induction Hl as [|x l Hx Hl IH]; cbn.
  - constructor; [intros [] | constructor].
  - constructor.
    + rewrite in_app_iff. intros [H|[H|[]]]; [now apply Hx|].
      subst. apply Ha. now left.
    + apply IH. intros H. apply Ha. now right.
Qed.

Lemma NoDup_map_filter (f : SleepLogRow -> bool) (l : list SleepLogRow) :
  NoDup (map id l) -> NoDup (map id (filter f l)).
Proof.
  induction l as [|a l IH]; cbn; intros H; [constructor|].
  inversion H as [|x xs Hx Hxs]; subst.
  destruct (f a); cbn; [constructor|]; auto.
  intros Hin. apply Hx. apply in_map_iff in Hin. destruct Hin as [r [Hr Hin]].
  apply in_map_iff. exists r. split; [exact Hr|]. now apply filter_In in Hin.
Qed.

(** X2. The three writers of [sleep_logs] keep the ids of the table distinct,
    whether they succeed or fail: create takes a fresh id, update keeps ids,
    delete only removes rows. *)
Lemma ids_stay_distinct (db : DB) (log : SleepLog.t) (n : Z) :
  NoDup (map id (sleep_logs db)) ->
  NoDup (map id (sleep_logs (snd (add_sleep_log log db))))
  /\ NoDup (map id (sleep_logs (snd (update_sleep_log n log db))))
  /\ NoDup (map id (sleep_logs (snd (delete_sleep_log n db)))).
Proof.
  intros Hnd. split; [|split].
  - unfold add_sleep_log, insert_sleep_log, with_sleep_logs.
    destruct (Datetime.strptime (SleepLog.sleep_time log)); [|exact Hnd].
    destruct (Datetime.strptime (SleepLog.wake_time log)); [|exact Hnd].
    run_handler. cbn [sleep_logs]. rewrite map_app. cbn.
    apply NoDup_snoc; [exact Hnd | apply next_id_fresh].
  - unfold update_sleep_log, update_sleep_logs, with_sleep_logs. run_handler.
    destruct (fetchone _); [|exact Hnd].
    destruct (Datetime.strptime (SleepLog.sleep_time log)); [|exact Hnd].
    destruct (Datetime.strptime (SleepLog.wake_time log)); [|exact Hnd].
    cbn. rewrite map_map.
    erewrite map_ext; [exact Hnd|]. intros r. now destruct (id r =? n).
  - unfold delete_sleep_log, insert_history, delete_sleep_logs, with_history,
      with_sleep_logs. run_handler.
    destruct (fetchone _); [|exact Hnd]. cbn.
    destruct (rowcount _ =? 0); cbn; now apply NoDup_map_filter.
Qed.

Lemma ids_stay_distinct_witness :
  NoDup (map id (sleep_logs (snd (add_sleep_log
           (SleepLog.mk "2024-05-03 23:15" "2024-05-04 07:00" 0%float) sample_db))))
  /\ NoDup (map id (sleep_logs (snd (update_sleep_log 2
              (SleepLog.mk "2024-05-03 23:15" "2024-05-04 07:00" 0%float) sample_db))))
  /\ NoDup (map id (sleep_logs (snd (delete_sleep_log 2 sample_db)))).
Proof.
  apply (ids_stay_distinct sample_db
           (SleepLog.mk "2024-05-03 23:15" "2024-05-04 07:00" 0%float) 2).
  cbn. repeat constructor; cbn; intuition (try discriminate).
Defined.

(* ===================================================================== *)
(** ** Further properties *)
(* ===================================================================== *)

(** *** Routing *)

Lemma substring_all (s : string) : substring 0 (String.length s) s = s.
Proof. induction s as [|c s IH]; cbn; [reflexivity | now rewrite IH]. Qed.

Lemma plus_rests_whole (p : ascii -> bool) (c : ascii) (s : string) :
  forallb p (list_ascii_of_string (String c s)) = true ->
  exists tl, Re.plus_rests p (String c s) = "" :: tl.
Proof.
  revert c. induction s as [|c' s IH]; intros c H; cbn in H |- *.
  - apply andb_true_iff in H. destruct H as [-> _]. now exists [].
  - apply andb_true_iff in H. destruct H as [Hc H]. rewrite Hc.
    destruct (IH c' H) as [tl Htl]. cbn in Htl. rewrite Htl. now eexists.
Qed.

(** A segment is taken whole by [(?P<name>[^/]+)$], and that is the first
    match. *)
Lemma exec_param_tail (name d : string) (caps : Re.captures) :
  segment d = true ->
  exists tl,
    Re.exec (Re.Cat (Re.Grp name (Re.Plus not_slash)) Re.Dollar) d caps
    = ("", (name, d) :: caps) :: tl.
Proof.
  intros H. destruct d as [|c s]; [discriminate|]. cbn [segment] in H.
  destruct (plus_rests_whole not_slash c s H) as [tl Htl].
  cbn [Re.exec]. rewrite Htl. cbn [map flat_map fst snd Re.exec].
  unfold Re.consumed. cbn [String.eqb orb app].
  rewrite Nat.sub_0_r, substring_all. now eexists.
Qed.

Lemma exec_chr_same (c : ascii) (r : Re.regex) (s : string) (caps : Re.captures) :
  Re.exec (Re.Cat (Re.Chr c) r) (String c s) caps = Re.exec r s caps.
Proof. cbn. rewrite Ascii.eqb_refl. cbn. apply app_nil_r. Qed.

Lemma scan_none (r : route) (rs : list route) (m : http_method) (path : string) (p : bool) :
  matches r m path = MatchNone -> scan (r :: rs) m path p = scan rs m path p.
Proof. intros H. cbn [scan]. now rewrite H. Qed.

Lemma scan_partial (r : route) (rs : list route) (m : http_method) (path : string)
  (p : bool) (params : path_params) :
  matches r m path = MatchPartial params -> scan (r :: rs) m path p = scan rs m path true.
Proof. intros H. cbn [scan]. now rewrite H. Qed.

Lemma scan_full (r : route) (rs : list route) (m : http_method) (path : string)
  (p : bool) (params : path_params) :
  matches r m path = MatchFull params ->
  scan (r :: rs) m path p = Some (Handled (target r) params).
Proof. intros H. cbn [scan]. now rewrite H. Qed.

(** A route that does not match the path is passed over. *)
Ltac skip_route :=
  rewrite scan_none by (unfold matches, Re.re_match; cbn; reflexivity).

Lemma date_route_matches (d : string) (m : http_method) :
  segment d = true ->
  matches (mk_route [GET] "/sleep_logs/{date}" Get_sleep_logs_by_date) m
          ("/sleep_logs/" +++ d)
  = if method_eqb m GET then MatchFull [("date", d)] else MatchPartial [("date", d)].
Proof.
  intros H. unfold matches, Re.re_match.
  cbn [path_template compile_path compile_from Ascii.eqb Bool.eqb String.append methods].
  rewrite !exec_chr_same.
  destruct (exec_param_tail "date" d [] H) as [tl ->].
  cbn [hd_error existsb]. now rewrite orb_false_r.
Qed.

Lemma log_id_route_matches (d : string) (m m' : http_method) (e : endpoint) :
  segment d = true ->
  matches (mk_route [m'] "/sleep_logs/{log_id}" e) m ("/sleep_logs/" +++ d)
  = if method_eqb m m' then MatchFull [("log_id", d)] else MatchPartial [("log_id", d)].
Proof.
  intros H. unfold matches, Re.re_match.
  cbn [path_template compile_path compile_from Ascii.eqb Bool.eqb String.append methods].
  rewrite !exec_chr_same.
  destruct (exec_param_tail "log_id" d [] H) as [tl ->].
  cbn [hd_error existsb]. now rewrite orb_false_r.
Qed.

(** X3. Every path [/sleep_logs/<segment>] with one more segment goes, by
    method, to the date read (GET), the update (PUT) and the delete
    (DELETE), with the segment as the parameter: the route of the date read
    comes first among the GET routes and takes every such path, whatever the
    segment spells. *)
Theorem single_segment_routing (d : string) :
  segment d = true ->
  resolve GET ("/sleep_logs/" +++ d) = Handled Get_sleep_logs_by_date [("date", d)]
  /\ resolve PUT ("/sleep_logs/" +++ d) = Handled Update_sleep_log [("log_id", d)]
  /\ resolve DELETE ("/sleep_logs/" +++ d) = Handled Delete_sleep_log [("log_id", d)].
Proof.
  intros H. unfold resolve, routes. repeat split.
  - do 6 skip_route.
    erewrite scan_full by (rewrite (date_route_matches d GET H); reflexivity).
    reflexivity.
  - do 6 skip_route.
    erewrite scan_partial by (rewrite (date_route_matches d PUT H); reflexivity).
    erewrite scan_full by (rewrite (log_id_route_matches d PUT PUT _ H); reflexivity).
    reflexivity.
  - do 6 skip_route.
    erewrite scan_partial by (rewrite (date_route_matches d DELETE H); reflexivity).
    erewrite scan_partial by (rewrite (log_id_route_matches d DELETE PUT _ H); reflexivity).
    erewrite scan_full by (rewrite (log_id_route_matches d DELETE DELETE _ H); reflexivity).
    reflexivity.
Qed.

Lemma single_segment_routing_witness :
  resolve GET ("/sleep_logs/" +++ "history")
  = Handled Get_sleep_logs_by_date [("date", "history")]
  /\ resolve PUT ("/sleep_logs/" +++ "history") = Handled Update_sleep_log [("log_id", "history")]
  /\ resolve DELETE ("/sleep_logs/" +++ "history")
     = Handled Delete_sleep_log [("log_id", "history")].
Proof. apply (single_segment_routing "history"). reflexivity. Defined.

Lemma plus_rests_segment (y : string) (tail : string) :
  segment y = true ->
  exists tl, Re.plus_rests not_slash (y +++ String "/" tail) = String "/" tail :: tl.
Proof.
  destruct y as [|c y]; [discriminate|]. cbn [segment]. revert c.
  induction y as [|c' y IH]; intros c H; cbn in H |- *.
  - apply andb_true_iff in H. destruct H as [-> _]. now exists [].
  - apply andb_true_iff in H. destruct H as [Hc H]. rewrite Hc.
    destruct (IH c' H) as [tl Htl]. cbn in Htl. rewrite Htl. now eexists.
Qed.

Lemma length_append (a b : string) :
  String.length (a +++ b) = (String.length a + String.length b)%nat.
Proof. induction a as [|c a IH]; cbn; [reflexivity | now rewrite IH]. Qed.

Lemma substring_prefix (a b : string) : substring 0 (String.length a) (a +++ b) = a.
Proof.
  induction a as [|c a IH]; cbn; [now destruct b | now rewrite IH].
Qed.

Lemma consumed_prefix (a b : string) : Re.consumed (a +++ b) b = a.
Proof.
  unfold Re.consumed. rewrite length_append.
  replace (String.length a + String.length b - String.length b)%nat
    with (String.length a) by lia.
  apply substring_prefix.
Qed.

Lemma exec_group_first (name : string) (R : Re.regex) (s rest : string)
  (tl : list string) (caps : Re.captures) :
  Re.plus_rests not_slash s = rest :: tl ->
  exists more,
    Re.exec (Re.Cat (Re.Grp name (Re.Plus not_slash)) R) s caps
    = Re.exec R rest ((name, Re.consumed s rest) :: caps) ++ more.
Proof.
  intros H. cbn [Re.exec]. rewrite H. cbn [map flat_map fst snd]. now eexists.
Qed.

Lemma month_route_matches (y m : string) :
  segment y = true -> segment m = true ->
  matches (mk_route [GET] "/sleep_logs/month/{year}/{month}" Get_sleep_logs_by_month) GET
          ("/sleep_logs/month/" +++ y +++ "/" +++ m)
  = MatchFull [("month", m); ("year", y)].
Proof.
  intros Hy Hm. unfold matches, Re.re_match.
  cbn [path_template compile_path compile_from Ascii.eqb Bool.eqb String.append methods].
  rewrite !exec_chr_same.
  destruct (plus_rests_segment y m Hy) as [tl Htl].
  destruct (exec_group_first "year"
              (Re.Cat (Re.Chr "/") (Re.Cat (Re.Grp "month" (Re.Plus not_slash)) Re.Dollar))
              _ _ _ [] Htl) as [more ->].
  rewrite exec_chr_same.
  destruct (exec_param_tail "month" m
              [("year", Re.consumed (y +++ String "/" m) (String "/" m))] Hm) as [tl' ->].
  cbn [app hd_error existsb method_eqb orb].
  now rewrite (consumed_prefix y (String "/" m)).
Qed.

Lemma year_route_matches (y : string) :
  segment y = true ->
  matches (mk_route [GET] "/sleep_logs/year/{year}" Get_sleep_logs_by_year) GET
          ("/sleep_logs/year/" +++ y)
  = MatchFull [("year", y)].
Proof.
  intros H. unfold matches, Re.re_match.
  cbn [path_template compile_path compile_from Ascii.eqb Bool.eqb String.append methods].
  rewrite !exec_chr_same.
  destruct (exec_param_tail "year" y [] H) as [tl ->]. reflexivity.
Qed.

Lemma summary_route_matches (d : string) :
  segment d = true ->
  matches (mk_route [GET] "/sleep_logs/summary/{date}" Get_daily_sleep_summary) GET
          ("/sleep_logs/summary/" +++ d)
  = MatchFull [("date", d)].
Proof.
  intros H. unfold matches, Re.re_match.
  cbn [path_template compile_path compile_from Ascii.eqb Bool.eqb String.append methods].
  rewrite !exec_chr_same.
  destruct (exec_param_tail "date" d [] H) as [tl ->]. reflexivity.
Qed.

(** X4. The GET paths with more than one segment after [/sleep_logs] are not
    taken by the date read: the month, year and summary paths reach their
    own endpoints, with their segments as the parameters. *)
Theorem longer_paths_reach_their_endpoints (y m d : string) :
  segment y = true -> segment m = true -> segment d = true ->
  resolve GET ("/sleep_logs/month/" +++ y +++ "/" +++ m)
  = Handled Get_sleep_logs_by_month [("month", m); ("year", y)]
  /\ resolve GET ("/sleep_logs/year/" +++ y) = Handled Get_sleep_logs_by_year [("year", y)]
  /\ resolve GET ("/sleep_logs/summary/" +++ d)
     = Handled Get_daily_sleep_summary [("date", d)].
Proof.
  intros Hy Hm Hd. unfold resolve, routes. repeat split.
  - do 14 skip_route.
    erewrite scan_full by (apply (month_route_matches y m Hy Hm)). reflexivity.
  - do 15 skip_route.
    erewrite scan_full by (apply (year_route_matches y Hy)). reflexivity.
  - do 17 skip_route.
    erewrite scan_full by (apply (summary_route_matches d Hd)). reflexivity.
Qed.

Lemma longer_paths_reach_their_endpoints_witness :
  resolve GET ("/sleep_logs/month/" +++ "2024" +++ "/" +++ "05")
  = Handled Get_sleep_logs_by_month [("month", "05"); ("year", "2024")]
  /\ resolve GET ("/sleep_logs/year/" +++ "2024")
     = Handled Get_sleep_logs_by_year [("year", "2024")]
  /\ resolve GET ("/sleep_logs/summary/" +++ "2024-05-01")
     = Handled Get_daily_sleep_summary [("date", "2024-05-01")].
Proof.
  apply (longer_paths_reach_their_endpoints "2024" "05" "2024-05-01"); reflexivity.
Defined.

(** A handled request was matched in full by a route of the table. *)
Lemma scan_handled (rs : list route) (m : http_method) (path : string) :
  forall (p : bool) (e : endpoint) (params : path_params),
    scan rs m path p = Some (Handled e params) ->
    exists r, In r rs /\ target r = e /\ matches r m path = MatchFull params.
Proof.
  induction rs as [|r rs IH]; intros p e params H; cbn [scan] in H.
  - destruct p; discriminate.
  - destruct (matches r m path) as [|ps|ps] eqn:Hm.
    + destruct (IH _ _ _ H) as [r' [Hin Hr']]. exists r'. split; [now right | exact Hr'].
    + destruct (IH _ _ _ H) as [r' [Hin Hr']]. exists r'. split; [now right | exact Hr'].
    + injection H as <- <-. exists r. split; [now left|]. split; [reflexivity | exact Hm].
Qed.

Lemma resolve_handled (m : http_method) (path : string) (e : endpoint)
  (params : path_params) :
  resolve m path = Handled e params ->
  exists r, In r routes /\ target r = e /\ matches r m path = MatchFull params.
Proof.
  unfold resolve. destruct (scan routes m path false) as [res|] eqn:Hs.
  - intros ->. now apply scan_handled in Hs.
  - destruct (_ && _); discriminate.
Qed.

Lemma full_match_method (r : route) (m : http_method) (path : string)
  (params : path_params) :
  matches r m path = MatchFull params -> existsb (method_eqb m) (methods r) = true.
Proof.
  unfold matches. destruct (Re.re_match _ path) as [[rest ps]|]; [|discriminate].
  now destruct (existsb _ _).
Qed.

(** X5. The history read is registered under [sleep_logs/history], without
    the leading slash, so no request path (they all start with a slash)
    reaches it, with any method. *)
Theorem history_read_is_unreachable (m : http_method) (rest : string) (e : endpoint)
  (params : path_params) :
  resolve m (String "/" rest) = Handled e params -> e <> Get_sleep_log_history.
Proof.
  intros H He. subst e. destruct (resolve_handled _ _ _ _ H) as [r [Hin [Ht Hm]]].
  unfold routes in Hin. cbn [In] in Hin.
  repeat (destruct Hin as [<-|Hin]; [try discriminate Ht|]); [|destruct Hin].
  unfold matches, Re.re_match in Hm. cbn in Hm. discriminate.
Qed.

Lemma history_read_is_unreachable_witness :
  resolve GET "/sleep_logs/history" = Handled Get_sleep_logs_by_date [("date", "history")]
  /\ Get_sleep_logs_by_date <> Get_sleep_log_history.
Proof.
  assert (H : resolve GET "/sleep_logs/history"
              = Handled Get_sleep_logs_by_date [("date", "history")])
    by (vm_compute; reflexivity).
  split; [exact H|].
  exact (history_read_is_unreachable GET "sleep_logs/history" _ _ H).
Defined.

(** *** What a request leaves of the store *)

Lemma get_all_sleep_logs_reads : read_only get_all_sleep_logs.
Proof. unfold get_all_sleep_logs. reader. Qed.

Lemma get_sleep_logs_by_date_reads (date : string) : read_only (get_sleep_logs_by_date date).
Proof.
  unfold get_sleep_logs_by_date. intros db. run_handler.
  now destruct (logs_like date db).
Qed.

Lemma get_average_sleep_duration_reads (E : Env) : read_only (get_average_sleep_duration E).
Proof. unfold get_average_sleep_duration. reader. Qed.

Lemma get_frequent_sleep_time_reads (E : Env) : read_only (get_frequent_sleep_time E).
Proof.
  unfold get_frequent_sleep_time. intros db. run_handler.
  now destruct (frequent_hour E sleep_time db) as [[hour count]|].
Qed.

Lemma get_frequent_wake_time_reads (E : Env) : read_only (get_frequent_wake_time E).
Proof.
  unfold get_frequent_wake_time. intros db. run_handler.
  now destruct (frequent_hour E wake_time db) as [[hour count]|].
Qed.

Lemma get_longest_sleep_duration_reads : read_only get_longest_sleep_duration.
Proof. unfold get_longest_sleep_duration. reader. Qed.

Lemma get_shortest_sleep_duration_reads : read_only get_shortest_sleep_duration.
Proof. unfold get_shortest_sleep_duration. reader. Qed.

Lemma get_sleep_logs_by_month_reads (E : Env) (y m : Z) :
  read_only (get_sleep_logs_by_month E y m).
Proof. unfold get_sleep_logs_by_month. reader. Qed.

Lemma get_sleep_logs_by_year_reads (E : Env) (y : Z) : read_only (get_sleep_logs_by_year E y).
Proof. unfold get_sleep_logs_by_year. reader. Qed.

Lemma set_monthly_sleep_goal_reads (E : Env) (goal : SleepGoal.t) :
  read_only (set_monthly_sleep_goal E goal).
Proof.
  intros db. unfold set_monthly_sleep_goal.
  now destruct (last_day_of_month _ _).
Qed.

Lemma get_daily_sleep_summary_reads (E : Env) (date : string) :
  read_only (get_daily_sleep_summary E date).
Proof.
  unfold get_daily_sleep_summary. intros db. run_handler.
  now destruct (logs_like date db).
Qed.

Lemma get_sleep_log_history_reads : read_only get_sleep_log_history.
Proof. unfold get_sleep_log_history. reader. Qed.

Lemma recommendation_list_reads : read_only recommendation_list.
Proof. unfold recommendation_list. reader. Qed.

Lemma get_recommendation_history_reads : read_only get_recommendation_history.
Proof. unfold get_recommendation_history. reader. Qed.

Create HintDb handlers.

#[local] Hint Resolve get_all_sleep_logs_reads get_sleep_logs_by_date_reads
  get_average_sleep_duration_reads get_frequent_sleep_time_reads
  get_frequent_wake_time_reads get_longest_sleep_duration_reads
  get_shortest_sleep_duration_reads get_sleep_logs_by_month_reads
  get_sleep_logs_by_year_reads set_monthly_sleep_goal_reads
  get_daily_sleep_summary_reads get_sleep_log_history_reads
  recommendation_list_reads get_recommendation_history_reads : handlers.

Lemma read_only_all_or_nothing (h : handler) : read_only h -> all_or_nothing h.
Proof. intros H db. left. apply H. Qed.

(** A statement that affects the rows a fetch found a row in affects at
    least one. *)
Lemma rowcount_fetched {A : Type} (l : list A) (x : A) :
  fetchone l = Some x -> (rowcount l =? 0) = false.
Proof.
  destruct l; [discriminate|]. intros _. unfold rowcount. cbn [List.length].
  apply Z.eqb_neq. lia.
Qed.

Lemma add_sleep_log_settles (log : SleepLog.t) : all_or_nothing (add_sleep_log log).
Proof.
  intros db. unfold add_sleep_log.
  destruct (Datetime.strptime (SleepLog.sleep_time log)); [|now left].
  destruct (Datetime.strptime (SleepLog.wake_time log)); [|now left].
  now right.
Qed.

Lemma update_sleep_log_settles (n : Z) (log : SleepLog.t) :
  all_or_nothing (update_sleep_log n log).
Proof.
  intros db. unfold update_sleep_log. run_handler.
  destruct (fetchone _); [|now left].
  destruct (Datetime.strptime (SleepLog.sleep_time log)); [|now left].
  destruct (Datetime.strptime (SleepLog.wake_time log)); [|now left].
  now right.
Qed.

Lemma delete_sleep_log_settles (n : Z) : all_or_nothing (delete_sleep_log n).
Proof.
  intros db. unfold delete_sleep_log, insert_history, delete_sleep_logs, with_history,
    with_sleep_logs. run_handler.
  destruct (fetchone _) as [h|] eqn:Hf; [|now left].
  cbn. rewrite (rowcount_fetched _ _ Hf). now right.
Qed.

Lemma add_recommendations_settles (text : string) : all_or_nothing (add_recommendations text).
Proof. intros db. now right. Qed.

Lemma update_recommendation_settles (n : Z) (text : string) :
  all_or_nothing (update_recommendation n text).
Proof.
  intros db. unfold update_recommendation, update_recommendations. run_handler.
  destruct (rowcount _ =? 0); [now left | now right].
Qed.

Lemma delete_recommendation_settles (n : Z) : all_or_nothing (delete_recommendation n).
Proof.
  intros db. unfold delete_recommendation, insert_recommendation_history,
    delete_recommendations, with_recommendation_history, with_recommendations.
  run_handler.
  destruct (fetchone _); [|now left]. cbn.
  destruct (rowcount _ =? 0); [now left | now right].
Qed.

#[local] Hint Resolve read_only_all_or_nothing add_sleep_log_settles
  update_sleep_log_settles delete_sleep_log_settles add_recommendations_settles
  update_recommendation_settles delete_recommendation_settles : handlers.

Lemma answer_read_only (h : handler) (db : DB) :
  read_only h -> snd (answer h db) = db.
Proof. intros H. unfold answer. specialize (H db). now destruct (h db). Qed.

Lemma answer_all_or_nothing (h : handler) (db : DB) :
  all_or_nothing h -> status_of (fst (answer h db)) <> 200 -> snd (answer h db) = db.
Proof.
  intros H. unfold answer. specialize (H db). destruct (h db) as [r db']. cbn in *.
  destruct H as [H|H]; [auto|]. destruct r; [cbn; congruence | discriminate].
Qed.

(** X6. A GET request never changes the store, whatever its path: every
    endpoint a GET can reach only reads. *)
Theorem get_requests_leave_the_store (E : Env) (path : string) (body : payload) (db : DB) :
  snd (app E GET path body db) = db.
Proof.
  unfold app. destruct (resolve GET path) as [e params| | |] eqn:Hr; try reflexivity.
  destruct (resolve_handled _ _ _ _ Hr) as [r [Hin [Ht Hm]]].
  apply full_match_method in Hm.
  unfold routes in Hin. cbn [In] in Hin.
  repeat (destruct Hin as [<-|Hin]; [try discriminate Hm; subst e|]); [..|destruct Hin];
    destruct body; cbn [run target]; unfold with_int;
    repeat match goal with
           | |- context [int_param E ?s] => destruct (int_param E s)
           end;
    try reflexivity; apply answer_read_only; auto with handlers.
Qed.

(** X7. A request that is not answered with status 200 leaves the store as
    it was: every handler that raises has either not written yet or rolls
    back, and the delete of a sleep log, which commits before it checks the
    row count, never fails that check once the row was fetched. *)
Theorem failed_requests_leave_the_store (E : Env) (m : http_method) (path : string)
  (body : payload) (db : DB) :
  status_of (fst (app E m path body db)) <> 200 ->
  snd (app E m path body db) = db.
Proof.
  unfold app. destruct (resolve m path) as [e params| | |]; try reflexivity.
  destruct e; destruct body; cbn [run]; unfold with_int;
    repeat match goal with
           | |- context [int_param E ?s] => destruct (int_param E s)
           end;
    try reflexivity; try (intros H; now contradiction H);
    apply answer_all_or_nothing; auto with handlers.
Qed.

Lemma failed_requests_leave_the_store_witness :
  status_of (fst (app sqlite3 DELETE "/sleep_logs/9999" NoPayload sample_db)) = 500
  /\ snd (app sqlite3 DELETE "/sleep_logs/9999" NoPayload sample_db) = sample_db.
Proof.
  split; [vm_compute; reflexivity|].
  apply (failed_requests_leave_the_store sqlite3 DELETE "/sleep_logs/9999" NoPayload
           sample_db).
  vm_compute. discriminate.
Defined.

(** X8. A DELETE of [/sleep_logs/<segment>] runs the delete handler on the
    segment read as an int, and is refused as unprocessable, the store
    untouched, when the segment is no int. *)
Theorem delete_request_reaches_the_handler (E : Env) (d : string) (body : payload) (db : DB) :
  segment d = true ->
  app E DELETE ("/sleep_logs/" +++ d) body db
  = match int_param E d with
    | Some n => answer (delete_sleep_log n) db
    | None => (Unprocessable, db)
    end.
Proof.
  intros H. unfold app.
  assert (Hroute : resolve DELETE ("/sleep_logs/" +++ d)
                   = Handled Delete_sleep_log [("log_id", d)]).
  { unfold resolve, routes. do 6 skip_route.
    erewrite scan_partial by (rewrite (date_route_matches d DELETE H); reflexivity).
    erewrite scan_partial by (rewrite (log_id_route_matches d DELETE PUT _ H); reflexivity).
    erewrite scan_full by (rewrite (log_id_route_matches d DELETE DELETE _ H); reflexivity).
    reflexivity. }
  rewrite Hroute. destruct body; cbn [run]; unfold with_int, param; cbn [Re.group];
    rewrite String.eqb_refl; reflexivity.
Qed.

Lemma delete_request_reaches_the_handler_witness :
  app sqlite3 DELETE ("/sleep_logs/" +++ "1") NoPayload sample_db
  = answer (delete_sleep_log 1) sample_db
  /\ app sqlite3 DELETE ("/sleep_logs/" +++ "one") NoPayload sample_db
     = (Unprocessable, sample_db).
Proof.
  split.
  - apply (delete_request_reaches_the_handler sqlite3 "1" NoPayload sample_db). reflexivity.
  - apply (delete_request_reaches_the_handler sqlite3 "one" NoPayload sample_db). reflexivity.
Defined.

(** *** Dates as prefixes *)

Lemma some_suffix_here (f : string -> bool) (s : string) :
  f s = true -> some_suffix f s = true.
Proof. intros H. destruct s; cbn; now rewrite H. Qed.

(** A text is matched by each of its prefixes closed with [%], wildcards in
    the prefix included. *)
Lemma like_own_prefix (p rest : string) : like (p +++ "%") (p +++ rest) = true.
Proof.
  induction p as [|c p IH]; cbn [String.append].
  - apply like_percent.
  - cbn [like]. destruct (Ascii.eqb c "%").
    + cbn [some_suffix]. apply orb_true_iff. right. now apply some_suffix_here.
    + rewrite Ascii.eqb_refl, orb_true_r. exact IH.
Qed.





(** The store after a create whose timestamps parse. *)
Lemma add_sleep_log_appends (db : DB) (log : SleepLog.t) (sleep wake : Datetime.datetime) :
  Datetime.strptime (SleepLog.sleep_time log) = Return sleep ->
  Datetime.strptime (SleepLog.wake_time log) = Return wake ->
  snd (add_sleep_log log db)
  = mk_db (sleep_logs db
           ++ [mk_log (next_id (map id (sleep_logs db)))
                      (SleepLog.sleep_time log) (SleepLog.wake_time log)
                      (elapsed_hours wake sleep)])
          (history db) (sleep_recommendations db) (recommendation_history db).
Proof.
  intros Hs Hw. unfold add_sleep_log, insert_sleep_log, with_sleep_logs.
  rewrite Hs, Hw. run_handler. now rewrite hours_between_elapsed.
Qed.

(** X10. A log that was created is read back under every prefix of its
    [sleep_time] whose pattern is within the 50000 bytes the engine
    accepts: the date read then returns what it returned before, followed
    by the new row with the computed duration. *)
Theorem created_log_is_read_back (db : DB) (log : SleepLog.t)
  (sleep wake : Datetime.datetime) (date rest : string) :
  Datetime.strptime (SleepLog.sleep_time log) = Return sleep ->
  Datetime.strptime (SleepLog.wake_time log) = Return wake ->
  SleepLog.sleep_time log = date +++ rest ->
  like_too_complex (date +++ "%") = false ->
  items (fst (get_sleep_logs_by_date date (snd (add_sleep_log log db))))
  = items (fst (get_sleep_logs_by_date date db))
    ++ [dict_log (mk_log (next_id (map id (sleep_logs db)))
                         (SleepLog.sleep_time log) (SleepLog.wake_time log)
                         (elapsed_hours wake sleep))].
Proof.
  intros Hs Hw Hdate Hfits. rewrite (add_sleep_log_appends db log sleep wake Hs Hw).
  rewrite !by_date_items by exact Hfits.
  cbn [sleep_logs]. rewrite filter_app, map_app. f_equal.
  cbn [filter].
  assert (Hnew : starts_like date
                   (mk_log (next_id (map id (sleep_logs db))) (SleepLog.sleep_time log)
                           (SleepLog.wake_time log) (elapsed_hours wake sleep)) = true).
  { unfold starts_like. cbn [sleep_time]. rewrite Hdate. apply like_own_prefix. }
  now rewrite Hnew.
Qed.

Lemma created_log_is_read_back_witness :
  items (fst (get_sleep_logs_by_date "2024-05-03"
           (snd (add_sleep_log (SleepLog.mk "2024-05-03 23:15" "2024-05-04 07:00" 0%float)
                               sample_db))))
  = [] ++ [dict_log (mk_log 3 "2024-05-03 23:15" "2024-05-04 07:00" 7.75%float)].
Proof.
  pose proof (created_log_is_read_back sample_db
                (SleepLog.mk "2024-05-03 23:15" "2024-05-04 07:00" 0%float)
                (Datetime.mk_datetime 2024 5 3 23 15 0)
                (Datetime.mk_datetime 2024 5 4 7 0 0) "2024-05-03" " 23:15"
                ltac:(vm_compute; reflexivity) ltac:(vm_compute; reflexivity)
                ltac:(reflexivity) ltac:(reflexivity)) as H.
  rewrite H. vm_compute. reflexivity.
Defined.

(** *** Create, delete, delete again *)

(** X11. Creating a log and then deleting the id it was given restores the
    live table, and the history gains one row with the timestamps as sent
    and the computed duration. *)
Theorem create_then_delete (db : DB) (log : SleepLog.t) (sleep wake : Datetime.datetime) :
  Datetime.strptime (SleepLog.sleep_time log) = Return sleep ->
  Datetime.strptime (SleepLog.wake_time log) = Return wake ->
  delete_sleep_log (next_id (map id (sleep_logs db))) (snd (add_sleep_log log db))
  = (Return (message "Sleep log deleted successfully!"),
     mk_db (sleep_logs db)
           (history db ++ [mk_history (SleepLog.sleep_time log) (SleepLog.wake_time log)
                                      (elapsed_hours wake sleep)])
           (sleep_recommendations db) (recommendation_history db)).
Proof.
  intros Hs Hw. rewrite (add_sleep_log_appends db log sleep wake Hs Hw).
  set (n := next_id (map id (sleep_logs db))).
  assert (Hold : forall r, In r (sleep_logs db) -> (id r =? n) = false).
  { intros r Hr. apply Z.eqb_neq. apply (in_map id) in Hr.
    apply below_next_id in Hr. subst n. lia. }
  unfold delete_sleep_log, insert_history, delete_sleep_logs, with_history, with_sleep_logs.
  run_handler. cbn [sleep_logs]. rewrite !filter_app. cbn [filter id].
  rewrite Z.eqb_refl. rewrite (filter_none _ (sleep_logs db)) by exact Hold.
  cbn. rewrite !filter_app. cbn [filter id]. rewrite Z.eqb_refl.
  rewrite (filter_none _ (sleep_logs db)) by exact Hold.
  rewrite (filter_all _ (sleep_logs db))
    by (intros r Hr; now rewrite (Hold r Hr)).
  cbn. now rewrite app_nil_r.
Qed.

Lemma create_then_delete_witness :
  delete_sleep_log 3
    (snd (add_sleep_log (SleepLog.mk "2024-05-03 23:15" "2024-05-04 07:00" 0%float)
                        sample_db))
  = (Return (message "Sleep log deleted successfully!"),
     mk_db [one_night; nap]
           [mk_history "2024-05-03 23:15" "2024-05-04 07:00" 7.75%float] [tip] []).
Proof.
  pose proof (create_then_delete sample_db
                (SleepLog.mk "2024-05-03 23:15" "2024-05-04 07:00" 0%float)
                (Datetime.mk_datetime 2024 5 3 23 15 0)
                (Datetime.mk_datetime 2024 5 4 7 0 0)
                ltac:(vm_compute; reflexivity) ltac:(vm_compute; reflexivity)) as H.
  change (next_id (map id (sleep_logs sample_db))) with 3 in H.
  rewrite H. vm_compute. reflexivity.
Defined.

(** X12. Deleting the same sleep log a second time fails with the 500 of an
    absent id and changes nothing more. *)
Theorem second_delete_fails (db : DB) (r : SleepLogRow) :
  NoDup (map id (sleep_logs db)) ->
  In r (sleep_logs db) ->
  delete_sleep_log (id r) (snd (delete_sleep_log (id r) db))
  = (Raise (HTTPException 500 (Str none_not_subscriptable)),
     snd (delete_sleep_log (id r) db)).
Proof.
  intros Hnd Hin. destruct (in_split _ _ Hin) as [before [after Hsplit]].
  destruct db as [logs hist recs rhist]. cbn in Hnd, Hsplit |- *. subst logs.
  destruct (selected_row before after r Hnd) as [Hsel Hrest].
  assert (Hfirst : snd (delete_sleep_log (id r) (mk_db (before ++ r :: after) hist recs rhist))
                   = mk_db (before ++ after)
                           (hist ++ [mk_history (sleep_time r) (wake_time r) (duration r)])
                           recs rhist).
  { unfold delete_sleep_log, insert_history, delete_sleep_logs, with_history,
      with_sleep_logs.
    run_handler. cbn [sleep_logs]. rewrite Hsel. cbn. now rewrite Hsel, Hrest. }
  rewrite Hfirst.
  assert (Hgone : log_absent (id r) (mk_db (before ++ after)
                    (hist ++ [mk_history (sleep_time r) (wake_time r) (duration r)])
                    recs rhist)).
  { intros x Hx. cbn [sleep_logs] in Hx.
    assert (Hkept : In x (filter (fun x => negb (id x =? id r)) (before ++ r :: after)))
      by now rewrite Hrest.
    apply filter_In in Hkept. destruct Hkept as [_ Hne].
    apply negb_true_iff in Hne. now apply Z.eqb_neq. }
  unfold delete_sleep_log. run_handler.
  rewrite (no_log_selected _ _ Hgone). reflexivity.
Qed.

Lemma second_delete_fails_witness :
  delete_sleep_log 1 (snd (delete_sleep_log 1 sample_db))
  = (Raise (HTTPException 500 (Str none_not_subscriptable)),
     snd (delete_sleep_log 1 sample_db)).
Proof.
  apply (second_delete_fails sample_db one_night).
  - cbn. repeat constructor; cbn; intuition (try discriminate).
  - cbn. auto.
Defined.

(** *** Timestamps *)

(** X13. Updating an existing sleep log with a timestamp that does not parse
    raises inside the [try]: the answer is a 500 whose detail is the text of
    the parser's error, and no row changes. *)
Theorem unparsable_update_is_an_explicit_500 (n : Z) (log : SleepLog.t) (db : DB) (e : exn) :
  (exists r, In r (sleep_logs db) /\ id r = n) ->
  Datetime.strptime (SleepLog.sleep_time log) = Raise e
  \/ (raised (Datetime.strptime (SleepLog.sleep_time log)) = false
      /\ Datetime.strptime (SleepLog.wake_time log) = Raise e) ->
  update_sleep_log n log db = (Raise (HTTPException 500 (Str e)), db).
Proof.
  intros Hex Hbad. unfold update_sleep_log. run_handler.
  destruct (first_selected (fun r => id r =? n) (sleep_logs db)) as [y Hy].
  { destruct Hex as [r [Hin Hid]]. exists r. split; [exact Hin | now apply Z.eqb_eq]. }
  rewrite Hy. destruct Hbad as [Hs|[Hs Hw]].
  - now rewrite Hs.
  - destruct (Datetime.strptime (SleepLog.sleep_time log)); [|discriminate].
    now rewrite Hw.
Qed.

Lemma unparsable_update_is_an_explicit_500_witness :
  update_sleep_log 1 unparsable_log sample_db
  = (Raise (HTTPException 500 (Str (ValueError (TimeDataMismatch "yesterday 10pm")))),
     sample_db).
Proof.
  apply (unparsable_update_is_an_explicit_500 1 unparsable_log sample_db).
  - exists one_night. split; [cbn; auto | reflexivity].
  - left. vm_compute. reflexivity.
Defined.

Lemma days_in_month_calendar (y m : Z) :
  1 <= m <= 12 -> Datetime._days_in_month y m = calendar_days y m.
Proof.
  intros Hm. unfold Datetime._days_in_month, calendar_days, Datetime._is_leap.
  assert (H : m = 1 \/ m = 2 \/ m = 3 \/ m = 4 \/ m = 5 \/ m = 6 \/ m = 7
              \/ m = 8 \/ m = 9 \/ m = 10 \/ m = 11 \/ m = 12) by lia.
  repeat (destruct H as [->|H]; [cbn; try reflexivity; now destruct (_ && _)|]).
  subst. reflexivity.
Qed.

Lemma new_datetime_calendar (y m d hh mm : Z) (t : Datetime.datetime) :
  Datetime.new_datetime y m d hh mm = Return t -> calendar_datetime t.
Proof.
  unfold Datetime.new_datetime, Datetime.MINYEAR, Datetime.MAXYEAR.
  destruct (negb _); [discriminate|].
  destruct ((1 <=? y) && (y <=? 9999)) eqn:Hy; [|discriminate]. cbn [negb].
  destruct ((1 <=? m) && (m <=? 12)) eqn:Hm; [|discriminate]. cbn [negb].
  destruct ((1 <=? d) && (d <=? Datetime._days_in_month y m)) eqn:Hd; [|discriminate].
  cbn [negb].
  destruct ((0 <=? hh) && (hh <=? 23)) eqn:Hh; [|discriminate]. cbn [negb].
  destruct ((0 <=? mm) && (mm <=? 59)) eqn:Hmm; [|discriminate]. cbn [negb].
  intros [= <-]. unfold calendar_datetime.
  cbn [Datetime.year Datetime.month Datetime.day Datetime.hour Datetime.minute Datetime.second].
  apply andb_true_iff in Hy, Hm, Hd, Hh, Hmm.
  rewrite !Z.leb_le in *. rewrite <- days_in_month_calendar by lia. lia.
Qed.

(** What [strptime] returns is a date of the calendar. *)
Lemma strptime_calendar (s : string) (t : Datetime.datetime) :
  Datetime.strptime s = Return t -> calendar_datetime t.
Proof.
  unfold Datetime.strptime.
  destruct (Re.re_match Datetime.format_regex s) as [[rest found]|]; [|discriminate].
  destruct (negb (String.eqb rest "")); [discriminate|].
  destruct (Datetime.field "Y" found); cbn [rbind]; [|discriminate].
  destruct (Datetime.field "m" found); cbn [rbind]; [|discriminate].
  destruct (Datetime.field "d" found); cbn [rbind]; [|discriminate].
  destruct (Datetime.field "H" found); cbn [rbind]; [|discriminate].
  destruct (Datetime.field "M" found); cbn [rbind]; [|discriminate].
  apply new_datetime_calendar.
Qed.

(** X14. A create request succeeds only when both timestamps parse, and
    what they parse to are dates of the calendar (the day within the month,
    leap years included) with a time of day. *)
Theorem accepted_create_has_calendar_timestamps (log : SleepLog.t) (db : DB) (body : json) :
  fst (add_sleep_log log db) = Return body ->
  exists sleep wake,
    Datetime.strptime (SleepLog.sleep_time log) = Return sleep
    /\ Datetime.strptime (SleepLog.wake_time log) = Return wake
    /\ calendar_datetime sleep /\ calendar_datetime wake.
Proof.
  unfold add_sleep_log.
  destruct (Datetime.strptime (SleepLog.sleep_time log)) as [sleep|] eqn:Hs; [|discriminate].
  destruct (Datetime.strptime (SleepLog.wake_time log)) as [wake|] eqn:Hw; [|discriminate].
  intros _. exists sleep, wake. split; [reflexivity|]. split; [reflexivity|].
  split; [exact (strptime_calendar _ _ Hs) | exact (strptime_calendar _ _ Hw)].
Qed.

Lemma accepted_create_has_calendar_timestamps_witness :
  exists sleep wake,
    Datetime.strptime "2024-02-29 23:15" = Return sleep
    /\ Datetime.strptime "2024-03-01 07:00" = Return wake
    /\ calendar_datetime sleep /\ calendar_datetime wake.
Proof.
  apply (accepted_create_has_calendar_timestamps
           (SleepLog.mk "2024-02-29 23:15" "2024-03-01 07:00" 0%float) sample_db
           (message "Sleep log added successfully!")).
  vm_compute. reflexivity.
Defined.

(** *** Recommendations *)

Lemma selected_recommendation (before after : list RecommendationRow)
  (r : RecommendationRow) :
  NoDup (map rec_id (before ++ r :: after)) ->
  (forall x, In x (before ++ after) -> (rec_id x =? rec_id r) = false).
Proof.
  intros Hnd x Hx. rewrite map_app in Hnd. cbn in Hnd.
  pose proof (NoDup_remove_2 _ _ _ Hnd) as Hfresh.
  apply Z.eqb_neq. intros Heq. apply Hfresh.
  rewrite <- map_app, <- Heq. now apply in_map.
Qed.

(** X15. Deleting a recommendation whose id is in the store (ids being the
    key of the table) removes exactly that row and appends its text to the
    recommendation history; the sleep logs and their history are untouched. *)
Theorem recommendation_delete_archives_the_text (db : DB) (before after : list RecommendationRow)
  (r : RecommendationRow) :
  NoDup (map rec_id (sleep_recommendations db)) ->
  sleep_recommendations db = before ++ r :: after ->
  delete_recommendation (rec_id r) db
  = (Return (message "Recommendation deleted successfully"),
     mk_db (sleep_logs db) (history db) (before ++ after)
           (recommendation_history db ++ [recommendation r])).
Proof.
  intros Hnd Hsplit. destruct db as [logs hist recs rhist].
  cbn in Hnd, Hsplit |- *. subst recs.
  pose proof (selected_recommendation before after r Hnd) as Hother.
  assert (Hsel : filter (fun x => rec_id x =? rec_id r) (before ++ r :: after) = [r]).
  { rewrite filter_app. cbn. rewrite Z.eqb_refl.
    rewrite (filter_none _ before), (filter_none _ after); [reflexivity| |];
      intros x Hx; apply Hother, in_or_app; auto. }
  assert (Hrest : filter (fun x => negb (rec_id x =? rec_id r)) (before ++ r :: after)
                  = before ++ after).
  { rewrite filter_app. cbn. rewrite Z.eqb_refl. cbn.
    rewrite (filter_all _ before), (filter_all _ after); [reflexivity| |];
      intros x Hx; rewrite Hother; auto; apply in_or_app; auto. }
  unfold delete_recommendation, insert_recommendation_history, delete_recommendations,
    with_recommendation_history, with_recommendations.
  run_handler. cbn [sleep_recommendations]. rewrite Hsel. cbn. rewrite Hsel, Hrest.
  reflexivity.
Qed.

Lemma recommendation_delete_archives_the_text_witness :
  delete_recommendation 1 sample_db
  = (Return (message "Recommendation deleted successfully"),
     mk_db [one_night; nap] [] [] ["Keep a regular bedtime"]).
Proof.
  apply (recommendation_delete_archives_the_text sample_db [] [] tip).
  - cbn. repeat constructor. intros [].
  - reflexivity.
Defined.

Lemma map_unchanged {A : Type} (f : A -> A) (l : list A) :
  (forall x, In x l -> f x = x) -> map f l = l.
Proof.
  induction l as [|a l IH]; intros H; cbn; [reflexivity|].
  rewrite (H a (or_introl eq_refl)). f_equal. apply IH. intros x Hx. apply H. now right.
Qed.

(** X16. Updating a recommendation whose id is in the store replaces the
    text of that row, keeps its id and place, and leaves every other row and
    table as it was. *)
Theorem recommendation_update_rewrites_one_row (db : DB)
  (before after : list RecommendationRow) (r : RecommendationRow) (text : string) :
  NoDup (map rec_id (sleep_recommendations db)) ->
  sleep_recommendations db = before ++ r :: after ->
  update_recommendation (rec_id r) text db
  = (Return (message "Recommendation updated successfully"),
     mk_db (sleep_logs db) (history db) (before ++ mk_rec (rec_id r) text :: after)
           (recommendation_history db)).
Proof.
  intros Hnd Hsplit. destruct db as [logs hist recs rhist].
  cbn in Hnd, Hsplit |- *. subst recs.
  pose proof (selected_recommendation before after r Hnd) as Hother.
  unfold update_recommendation, update_recommendations, with_recommendations.
  run_handler. cbn [sleep_recommendations].
  assert (Hcount : (rowcount (filter (fun x => rec_id x =? rec_id r)
                                     (before ++ r :: after)) =? 0) = false).
  { rewrite filter_app. cbn [filter]. rewrite Z.eqb_refl. unfold rowcount.
    rewrite length_app. cbn [List.length]. apply Z.eqb_neq. lia. }
  rewrite Hcount. cbn. rewrite map_app. cbn [map]. rewrite Z.eqb_refl.
  rewrite (map_unchanged _ before), (map_unchanged _ after); [reflexivity| |];
    intros x Hx; rewrite Hother; auto; apply in_or_app; auto.
Qed.

Lemma recommendation_update_rewrites_one_row_witness :
  update_recommendation 1 "Avoid screens before bed" sample_db
  = (Return (message "Recommendation updated successfully"),
     mk_db [one_night; nap] [] [mk_rec 1 "Avoid screens before bed"] []).
Proof.
  apply (recommendation_update_rewrites_one_row sample_db [] [] tip).
  - cbn. repeat constructor. intros [].
  - reflexivity.
Defined.

(** X17. Adding a recommendation always succeeds; the list read then returns
    what it returned before followed by the new text, under an id greater
    than every id in the table. *)
Theorem added_recommendation_is_listed (text : string) (db : DB) :
  let n := next_id (map rec_id (sleep_recommendations db)) in
  fst (add_recommendations text db)
  = Return (message "Recommendation added successfully")
  /\ items (fst (recommendation_list (snd (add_recommendations text db))))
     = items (fst (recommendation_list db)) ++ [dict_rec (mk_rec n text)]
  /\ (forall r, In r (sleep_recommendations db) -> rec_id r < n).
Proof.
  intros n. split; [reflexivity|]. split.
  - unfold recommendation_list, add_recommendations, insert_recommendation,
      with_recommendations. run_handler. cbn. now rewrite map_app.
  - intros r Hr. apply below_next_id. now apply in_map.
Qed.

(** *** Month, year and day *)

(** X18. Every row the month read returns for a year and a month is also
    returned by the year read for that year. *)
Theorem month_rows_are_year_rows (E : Env) (year month : Z) (db : DB) (row : json) :
  In row (items (fst (get_sleep_logs_by_month E year month db))) ->
  In row (items (fst (get_sleep_logs_by_year E year db))).
Proof.
  unfold get_sleep_logs_by_month, get_sleep_logs_by_year. run_handler. cbn [items].
  rewrite !in_map_iff. intros [r [Hr Hin]]. exists r. split; [exact Hr|].
  apply filter_In in Hin. destruct Hin as [Hin Hm]. apply filter_In. split; [exact Hin|].
  unfold in_month in Hm. now apply andb_true_iff in Hm.
Qed.

Lemma month_rows_are_year_rows_witness :
  In (dict_log one_night) (items (fst (get_sleep_logs_by_month sqlite3 2024 5 sample_db)))
  /\ In (dict_log one_night) (items (fst (get_sleep_logs_by_year sqlite3 2024 sample_db))).
Proof.
  assert (H : In (dict_log one_night)
                 (items (fst (get_sleep_logs_by_month sqlite3 2024 5 sample_db)))).
  { vm_compute. left. reflexivity. }
  split; [exact H|].
  exact (month_rows_are_year_rows sqlite3 2024 5 sample_db (dict_log one_night) H).
Defined.

(** X19. For a date whose pattern (the date and the final [%]) is within
    the 50000 bytes the engine accepts, the daily summary answers with the
    date, a total and the number of rows the date read returns for the same
    date, and with nothing else; the total is 0.0 when no row matches.  For
    a longer date, on a table that is not empty, the engine refuses the
    query of the summary as it refuses that of the date read: both
    operations raise, neither has an [except] clause, the request is
    answered with status 500 and the store is left as it was. *)
Theorem summary_counts_the_date_read (E : Env) (date : string) (db : DB) :
  (like_too_complex (date +++ "%") = false ->
   exists total,
     get_daily_sleep_summary E date db
     = (Return (JObj [("date", JStr date);
                      ("total_duration", JNum (Float total));
                      ("log_count",
                       JNum (Int (Z.of_nat (List.length
                                    (items (fst (get_sleep_logs_by_date date db)))))))]),
        db)
     /\ (items (fst (get_sleep_logs_by_date date db)) = [] -> total = 0%float))
  /\ (like_too_complex (date +++ "%") = true -> sleep_logs db <> [] ->
      get_daily_sleep_summary E date db = (Raise too_complex, db)
      /\ get_sleep_logs_by_date date db = (Raise too_complex, db)
      /\ answer (get_daily_sleep_summary E date) db = (InternalServerError, db)
      /\ status_of (fst (answer (get_daily_sleep_summary E date) db)) = 500).
Proof.
  split.
  - intros Hfits. rewrite (by_date_items date db Hfits).
    unfold get_daily_sleep_summary. run_handler.
    rewrite (logs_like_rows date db Hfits).
    rewrite length_map. unfold rowcount. eexists. split; [reflexivity|].
    intros Hnone. destruct (filter (starts_like date) (sleep_logs db)); [|discriminate].
    reflexivity.
  - intros Hlong Hne.
    assert (Hsummary : get_daily_sleep_summary E date db = (Raise too_complex, db)).
    { unfold get_daily_sleep_summary. run_handler.
      now rewrite (logs_like_refused date db Hlong Hne). }
    split; [exact Hsummary|]. split.
    + unfold get_sleep_logs_by_date. run_handler.
      now rewrite (logs_like_refused date db Hlong Hne).
    + unfold answer. rewrite Hsummary. split; reflexivity.
Qed.

Lemma summary_counts_the_date_read_witness :
  (exists total,
      get_daily_sleep_summary sqlite3 "2024-05" sample_db
      = (Return (JObj [("date", JStr "2024-05");
                       ("total_duration", JNum (Float total));
                       ("log_count",
                        JNum (Int (Z.of_nat (List.length
                                     (items (fst (get_sleep_logs_by_date "2024-05"
                                                    sample_db)))))))]),
         sample_db)
      /\ (items (fst (get_sleep_logs_by_date "2024-05" sample_db)) = []
          -> total = 0%float))
  /\ (get_daily_sleep_summary sqlite3 (zeros (Z.to_nat 50000)) sample_db
      = (Raise too_complex, sample_db)
      /\ get_sleep_logs_by_date (zeros (Z.to_nat 50000)) sample_db
         = (Raise too_complex, sample_db)
      /\ answer (get_daily_sleep_summary sqlite3 (zeros (Z.to_nat 50000))) sample_db
         = (InternalServerError, sample_db)
      /\ status_of (fst (answer (get_daily_sleep_summary sqlite3 (zeros (Z.to_nat 50000)))
                                sample_db)) = 500).
Proof.
  split.
  - apply (proj1 (summary_counts_the_date_read sqlite3 "2024-05" sample_db)).
    reflexivity.
  - apply (proj2 (summary_counts_the_date_read sqlite3 (zeros (Z.to_nat 50000)) sample_db)).
    + vm_compute. reflexivity.
    + discriminate.
Defined.

(** *** Aggregates *)

Lemma fold_pick (pick : float -> float -> bool) (l : list float) (x : float) :
  In (fold_left (fun a b => if pick a b then b else a) l x) (x :: l).
Proof.
  revert x. induction l as [|y l IH]; intros x; cbn [fold_left]; [now left|].
  specialize (IH (if pick x y then y else x)). destruct IH as [H|H].
  - rewrite <- H. destruct (pick x y); [right; now left | now left].
  - right. now right.
Qed.

Lemma or_zero_cases (x : option float) :
  or_zero x = Int 0 \/ exists f, x = Some f /\ or_zero x = Float f.
Proof.
  destruct x as [f|]; [|now left]. cbn. destruct (float_truthy f); [right; eauto | now left].
Qed.

(** X20. The longest and the shortest duration reported are each the
    duration of a stored log, or the int 0 (on an empty table, or when that
    duration is zero). *)
Theorem extremes_are_stored_durations (db : DB) :
  exists longest shortest,
    get_longest_sleep_duration db
    = (Return (JObj [("longest_sleep_duration", JNum longest)]), db)
    /\ get_shortest_sleep_duration db
       = (Return (JObj [("shortest_sleep_duration", JNum shortest)]), db)
    /\ (longest = Int 0
        \/ exists r, In r (sleep_logs db) /\ longest = Float (duration r))
    /\ (shortest = Int 0
        \/ exists r, In r (sleep_logs db) /\ shortest = Float (duration r)).
Proof.
  unfold get_longest_sleep_duration, get_shortest_sleep_duration. run_handler.
  do 2 eexists. split; [reflexivity|]. split; [reflexivity|]. split.
  - destruct (or_zero_cases (real_max (map duration (sleep_logs db)))) as [H|[f [Hf H]]];
      [now left|]. right. rewrite H.
    unfold real_max in Hf. destruct (map duration (sleep_logs db)) as [|x l] eqn:Hl;
      [discriminate|]. injection Hf as <-.
    pose proof (fold_pick (fun a b => float_lt a b) l x) as Hin. rewrite <- Hl in Hin.
    apply in_map_iff in Hin. destruct Hin as [r [Hr Hin]]. exists r. now rewrite Hr.
  - destruct (or_zero_cases (real_min (map duration (sleep_logs db)))) as [H|[f [Hf H]]];
      [now left|]. right. rewrite H.
    unfold real_min in Hf. destruct (map duration (sleep_logs db)) as [|x l] eqn:Hl;
      [discriminate|]. injection Hf as <-.
    pose proof (fold_pick (fun a b => float_lt b a) l x) as Hin. rewrite <- Hl in Hin.
    apply in_map_iff in Hin. destruct Hin as [r [Hr Hin]]. exists r. now rewrite Hr.
Qed.

Lemma key_eqb_eq (a b : option string) : key_eqb a b = true <-> a = b.
Proof.
  destruct a as [x|], b as [y|]; cbn; try (split; [discriminate | congruence]).
  - rewrite String.eqb_eq. split; congruence.
  - split; reflexivity.
Qed.

Lemma key_eqb_refl (a : option string) : key_eqb a a = true.
Proof. now apply key_eqb_eq. Qed.

Lemma bump_count (k k' : option string) (groups : list (option string * Z)) :
  count_in (bump k groups) k'
  = count_in groups k' + (if key_eqb k' k then 1 else 0).
Proof.
  unfold count_in. induction groups as [|[k1 n] rest IH]; cbn [bump find fst snd].
  - destruct (key_eqb k' k); reflexivity.
  - destruct (key_eqb k k1) eqn:Hk; cbn [find fst snd].
    + apply key_eqb_eq in Hk. subst k1.
      destruct (key_eqb k' k); cbn [snd]; lia.
    + destruct (key_eqb k' k1) eqn:Hk'; cbn [snd]; [|exact IH].
      apply key_eqb_eq in Hk'. subst k1.
      destruct (key_eqb k' k) eqn:Hkk; [|lia].
      apply key_eqb_eq in Hkk. subst k'. rewrite key_eqb_refl in Hk. discriminate.
Qed.

Lemma fold_bump_count (keys : list (option string)) :
  forall groups k',
    count_in (fold_left (fun g k => bump k g) keys groups) k'
    = count_in groups k' + occurrences k' keys.
Proof.
  unfold occurrences. induction keys as [|k keys IH]; intros groups k'; cbn [fold_left filter].
  - cbn. lia.
  - rewrite IH, bump_count. destruct (key_eqb k' k); cbn [List.length]; lia.
Qed.

Lemma bump_keys (k : option string) (groups : list (option string * Z)) :
  map fst (bump k groups)
  = if existsb (key_eqb k) (map fst groups) then map fst groups
    else map fst groups ++ [k].
Proof.
  induction groups as [|[k1 n] rest IH]; cbn [bump map fst existsb app]; [reflexivity|].
  destruct (key_eqb k k1); cbn [map fst orb]; [reflexivity|].
  rewrite IH. now destruct (existsb (key_eqb k) (map fst rest)).
Qed.

Lemma NoDup_append_new {A : Type} (l : list A) (a : A) :
  NoDup l -> ~ In a l -> NoDup (l ++ [a]).
Proof.
  intros Hl Ha. induction Hl as [|x l Hx Hl IH]; cbn.
  - constructor; [intros [] | constructor].
  - constructor.
    + rewrite in_app_iff. intros [H|[H|[]]]; [now apply Hx|].
      subst. apply Ha. now left.
    + apply IH. intros H. apply Ha. now right.
Qed.

Lemma bump_distinct (k : option string) (groups : list (option string * Z)) :
  NoDup (map fst groups) -> NoDup (map fst (bump k groups)).
Proof.
  intros H. rewrite bump_keys.
  destruct (existsb (key_eqb k) (map fst groups)) eqn:He; [exact H|].
  apply NoDup_append_new; [exact H|]. intros Hin.
  assert (existsb (key_eqb k) (map fst groups) = true); [|congruence].
  apply existsb_exists. exists k. split; [exact Hin | apply key_eqb_refl].
Qed.

Lemma fold_bump_distinct (keys : list (option string)) :
  forall groups, NoDup (map fst groups) ->
                 NoDup (map fst (fold_left (fun g k => bump k g) keys groups)).
Proof.
  induction keys as [|k keys IH]; intros groups H; cbn [fold_left]; [exact H|].
  apply IH. now apply bump_distinct.
Qed.

Lemma count_of_member (groups : list (option string * Z)) (k : option string) (n : Z) :
  NoDup (map fst groups) -> In (k, n) groups -> count_in groups k = n.
Proof.
  unfold count_in. induction groups as [|[k1 n1] rest IH]; cbn [find map fst snd];
    intros Hnd Hin; [destruct Hin|].
  inversion Hnd as [|x xs Hx Hxs]; subst.
  destruct Hin as [Heq|Hin].
  - injection Heq as -> ->. now rewrite key_eqb_refl.
  - destruct (key_eqb k k1) eqn:Hk; [|now apply IH].
    apply key_eqb_eq in Hk. subst k1. exfalso. apply Hx.
    change k with (fst (k, n)). now apply in_map.
Qed.

Lemma count_of_stranger (groups : list (option string * Z)) (k : option string) :
  count_in groups k = 0 \/ In (k, count_in groups k) groups.
Proof.
  unfold count_in. destruct (find _ groups) as [[k1 n]|] eqn:Hf; [|now left].
  right. apply find_some in Hf. destruct Hf as [Hin Hk]. cbn in Hk.
  apply key_eqb_eq in Hk. now subst.
Qed.

Lemma best_group (rest : list (option string * Z)) :
  forall g,
    let best := fold_left (fun best g' => if snd best <=? snd g' then g' else best) rest g in
    In best (g :: rest) /\ forall g', In g' (g :: rest) -> snd g' <= snd best.
Proof.
  induction rest as [|g1 rest IH]; intros g; cbn [fold_left].
  - split; [now left|]. intros g' [<-|[]]. lia.
  - specialize (IH (if snd g <=? snd g1 then g1 else g)). cbv zeta in IH.
    destruct IH as [Hin Hmax]. split.
    + destruct Hin as [Hin|Hin]; [|right; now right].
      rewrite <- Hin. destruct (snd g <=? snd g1); [right; now left | now left].
    + intros g' Hg'.
      assert (Hpick : snd g <= snd (if snd g <=? snd g1 then g1 else g)
                      /\ snd g1 <= snd (if snd g <=? snd g1 then g1 else g)).
      { destruct (snd g <=? snd g1) eqn:Hle;
          [apply Z.leb_le in Hle | apply Z.leb_gt in Hle]; lia. }
      destruct Hg' as [<-|[<-|Hg']].
      * specialize (Hmax _ (or_introl eq_refl)). lia.
      * specialize (Hmax _ (or_introl eq_refl)). lia.
      * apply Hmax. now right.
Qed.

(** Putting the groups in the order of their keys keeps the groups. *)
Lemma insert_group_In (g x : option string * Z) (groups : list (option string * Z)) :
  In x (insert_group g groups) <-> x = g \/ In x groups.
Proof.
  induction groups as [|h rest IH]; cbn [insert_group].
  - cbn. intuition congruence.
  - destruct (key_leb (fst g) (fst h)); cbn [In]; [intuition congruence|].
    rewrite IH. intuition congruence.
Qed.

Lemma sorted_groups_In (x : option string * Z) (groups : list (option string * Z)) :
  In x (fold_right insert_group [] groups) <-> In x groups.
Proof.
  induction groups as [|g rest IH]; cbn [fold_right]; [reflexivity|].
  rewrite insert_group_In, IH. cbn [In]. intuition congruence.
Qed.

(** Grouping, counting and taking the largest count gives a key with the
    most occurrences, and its number of occurrences. *)
Lemma most_frequent_key (keys : list (option string)) :
  keys <> [] ->
  exists hour count,
    order_by_count_desc_limit_1 (group_by keys) = Some (hour, count)
    /\ count = occurrences hour keys
    /\ 1 <= count
    /\ forall h, occurrences h keys <= count.
Proof.
  intros Hne. unfold group_by, group_count.
  set (groups := fold_left (fun g k => bump k g) keys []).
  assert (Hcount : forall k, count_in groups k = occurrences k keys).
  { intros k. subst groups. now rewrite fold_bump_count. }
  assert (Hnd : NoDup (map fst groups)).
  { subst groups. apply fold_bump_distinct. constructor. }
  destruct keys as [|k0 keys]; [congruence|].
  assert (Hk0 : 1 <= occurrences k0 (k0 :: keys)).
  { unfold occurrences. cbn [filter]. rewrite key_eqb_refl. cbn [List.length]. lia. }
  assert (Hmember : In (k0, count_in groups k0) groups).
  { destruct (count_of_stranger groups k0) as [Hz|Hm]; [|exact Hm].
    specialize (Hcount k0). lia. }
  pose proof (sorted_groups_In) as Hsame.
  destruct (fold_right insert_group [] groups) as [|g rest] eqn:Hg.
  { apply (Hsame _ groups) in Hmember. rewrite Hg in Hmember. destruct Hmember. }
  cbn [order_by_count_desc_limit_1].
  destruct (best_group rest g) as [Hin Hmax].
  set (best := fold_left (fun best g' => if snd best <=? snd g' then g' else best) rest g)
    in *.
  exists (fst best), (snd best). rewrite <- surjective_pairing.
  split; [reflexivity|].
  assert (Hbest : snd best = occurrences (fst best) (k0 :: keys)).
  { rewrite <- Hcount. symmetry. apply count_of_member; [exact Hnd|].
    rewrite <- surjective_pairing. apply (Hsame best groups). now rewrite Hg. }
  assert (Hall : forall h, occurrences h (k0 :: keys) <= snd best).
  { intros h. rewrite <- Hcount.
    destruct (count_of_stranger groups h) as [H0|Hmem].
    - rewrite H0. pose proof (Hcount k0) as Hc0.
      apply (Hsame _ groups) in Hmember. rewrite Hg in Hmember.
      specialize (Hmax _ Hmember). cbn [snd] in Hmax. lia.
    - apply (Hsame _ groups) in Hmem. rewrite Hg in Hmem.
      specialize (Hmax _ Hmem). exact Hmax. }
  split; [exact Hbest|]. split; [|exact Hall].
  specialize (Hall k0). lia.
Qed.

(** X21. On a table that is not empty the two frequent-hour operations
    return an hour and its count: the count is the number of rows with that
    hour, it is at least 1, and no hour has more rows. *)
Theorem frequent_hour_is_the_most_frequent (E : Env) (db : DB) :
  sleep_logs db <> [] ->
  let sleep_hours := map (fun r => strftime E "%H" (sleep_time r)) (sleep_logs db) in
  let wake_hours := map (fun r => strftime E "%H" (wake_time r)) (sleep_logs db) in
  (exists hour count,
      get_frequent_sleep_time E db
      = (Return (JObj [("frequent_sleep_hour", hour_json hour);
                       ("count", JNum (Int count))]), db)
      /\ count = occurrences hour sleep_hours
      /\ 1 <= count
      /\ forall h, occurrences h sleep_hours <= count)
  /\ (exists hour count,
         get_frequent_wake_time E db
         = (Return (JObj [("frequent_wake_hour", hour_json hour);
                          ("count", JNum (Int count))]), db)
         /\ count = occurrences hour wake_hours
         /\ 1 <= count
         /\ forall h, occurrences h wake_hours <= count).
Proof.
  intros Hne sleep_hours wake_hours.
  assert (Hs : sleep_hours <> []).
  { subst sleep_hours. destruct (sleep_logs db); [congruence | discriminate]. }
  assert (Hw : wake_hours <> []).
  { subst wake_hours. destruct (sleep_logs db); [congruence | discriminate]. }
  split.
  - destruct (most_frequent_key sleep_hours Hs) as [hour [count [Hq Hrest]]].
    exists hour, count. split; [|exact Hrest].
    unfold get_frequent_sleep_time, frequent_hour. run_handler.
    fold sleep_hours. now rewrite Hq.
  - destruct (most_frequent_key wake_hours Hw) as [hour [count [Hq Hrest]]].
    exists hour, count. split; [|exact Hrest].
    unfold get_frequent_wake_time, frequent_hour. run_handler.
    fold wake_hours. now rewrite Hq.
Qed.

Lemma frequent_hour_is_the_most_frequent_witness :
  (exists hour count,
      get_frequent_sleep_time sqlite3 sample_db
      = (Return (JObj [("frequent_sleep_hour", hour_json hour);
                       ("count", JNum (Int count))]), sample_db)
      /\ count = occurrences hour [Some "22"; Some "13"]
      /\ 1 <= count
      /\ forall h, occurrences h [Some "22"; Some "13"] <= count)
  /\ (exists hour count,
         get_frequent_wake_time sqlite3 sample_db
         = (Return (JObj [("frequent_wake_hour", hour_json hour);
                          ("count", JNum (Int count))]), sample_db)
         /\ count = occurrences hour [Some "06"; Some "14"]
         /\ 1 <= count
         /\ forall h, occurrences h [Some "06"; Some "14"] <= count).
Proof.
  apply (frequent_hour_is_the_most_frequent sqlite3 sample_db). discriminate.
Defined.

(** *** The goal reached, and a month without logs *)

(** X22. When the hours logged in the month reach the hours required, the
    answer carries the achievement message, with the hours per night as the
    float prints by default, and both totals. *)
Theorem achieved_goal_message (E : Env) (goal : SleepGoal.t) (db : DB) (days_in_month : Z) :
  last_day_of_month (SleepGoal.year goal) (SleepGoal.month goal) = Return days_in_month ->
  let required :=
    PrimFloat.mul (SleepGoal.hours_per_night goal) (float_of_Z days_in_month) in
  let logged := total_logged E (SleepGoal.year goal) (SleepGoal.month goal) db in
  float_ge (to_float logged) required = true ->
  set_monthly_sleep_goal E goal db
  = (Return (JObj [("message",
                    JStr ("You achieved your goal of sleeping "
                          +++ float_repr (SleepGoal.hours_per_night goal)
                          +++ " hours a day this month!"));
                   ("total_logged_sleep", JNum logged);
                   ("total_required_sleep", JNum (Float required))]),
     db).
Proof.
  intros Hdays required logged Hge. unfold set_monthly_sleep_goal. rewrite Hdays.
  cbn [db_connection work durable]. fold required. fold logged. now rewrite Hge.
Qed.

Lemma achieved_goal_message_witness :
  set_monthly_sleep_goal sqlite3 february_goal rested_db
  = (Return (JObj [("message",
                    JStr "You achieved your goal of sleeping 8.0 hours a day this month!");
                   ("total_logged_sleep", JNum (Float 240%float));
                   ("total_required_sleep", JNum (Float 232%float))]),
     rested_db).
Proof.
  pose proof (achieved_goal_message sqlite3 february_goal rested_db 29
                ltac:(vm_compute; reflexivity) ltac:(vm_compute; reflexivity)) as H.
  rewrite H. vm_compute. reflexivity.
Defined.

(** X23. For a month in which no log falls, the hours logged are the int 0;
    the message is the shortfall with "0.00" hours logged, unless the hours
    required are themselves at most 0, when the goal counts as achieved. *)
Theorem month_without_logs (E : Env) (goal : SleepGoal.t) (db : DB) (days_in_month : Z) :
  last_day_of_month (SleepGoal.year goal) (SleepGoal.month goal) = Return days_in_month ->
  (forall r, In r (sleep_logs db) ->
             in_month E (SleepGoal.year goal) (SleepGoal.month goal) r = false) ->
  let required :=
    PrimFloat.mul (SleepGoal.hours_per_night goal) (float_of_Z days_in_month) in
  set_monthly_sleep_goal E goal db
  = (Return (JObj [("message",
                    JStr (if float_ge 0%float required
                          then achieved_message (SleepGoal.hours_per_night goal)
                          else "You didn't sleep well this month. Your goal was to sleep "
                               +++ float_repr required
                               +++ " hours, but you only logged 0.00 hours."));
                   ("total_logged_sleep", JNum (Int 0));
                   ("total_required_sleep", JNum (Float required))]),
     db).
Proof.
  intros Hdays Hnone required. unfold set_monthly_sleep_goal. rewrite Hdays.
  cbn [db_connection work durable]. fold required.
  unfold total_logged. rewrite (filter_none _ _ Hnone). cbn [map sql_sum or_zero to_float].
  change (float_of_Z 0) with 0%float.
  now destruct (float_ge 0%float required).
Qed.

Lemma month_without_logs_witness :
  set_monthly_sleep_goal sqlite3 february_goal sample_db
  = (Return (JObj [("message",
                    JStr "You didn't sleep well this month. Your goal was to sleep 232.0 hours, but you only logged 0.00 hours.");
                   ("total_logged_sleep", JNum (Int 0));
                   ("total_required_sleep", JNum (Float 232%float))]),
     sample_db).
Proof.
  pose proof (month_without_logs sqlite3 february_goal sample_db 29
                ltac:(vm_compute; reflexivity)) as H.
  rewrite H.
  - vm_compute. reflexivity.
  - intros r [<-|[<-|[]]]; vm_compute; reflexivity.
Defined.
